(** * Dataproc cluster manager: a shallow embedding and its properties

    The development follows
    [sdks/python/apache_beam/runners/interactive/dataproc/dataproc_cluster_manager.py].

    The manager talks to two external collaborators, the Dataproc
    cluster-controller client and the GCS file system.  Neither is part of the
    sources, so both are taken as a parameter ([Platform]): an oracle that
    answers every call from the history of what the manager did so far.  The
    manager itself is embedded as a state-and-exception monad over its two
    mutable attributes and that history. *)

From Stdlib Require Import String Ascii List ZArith Bool Arith Lia.
Import ListNotations.
Open Scope string_scope.
Open Scope list_scope.

Notation "a +++ b" := (String.append a b) (at level 60, right associativity).

(* ================================================================== *)
(** ** Python text operations used by the manager *)
(* ================================================================== *)

Module Text.

(** [sub in s] for [str]. *)
Fixpoint contains (sub s : string) : bool :=
  prefix sub s ||
  match s with
  | EmptyString => false
  | String _ s' => contains sub s'
  end.

(** The scan behind [s.split(sep)] for a non-empty [sep]: [skip] counts the
    characters of a separator that are still to be passed over. *)
Fixpoint split_go (sep : string) (skip : nat) (s : string) : list string :=
  match s with
  | EmptyString => [""]
  | String c s' =>
      match skip with
      | S k => split_go sep k s'
      | O =>
          if prefix sep s
          then "" :: split_go sep (String.length sep - 1) s'
          else match split_go sep 0 s' with
               | p :: ps => String c p :: ps
               | [] => [String c ""]
               end
      end
  end.

(** [re.sub(pat, repl, s)] for a non-empty pattern without metacharacters
    and a replacement that is already expanded: every occurrence found by a
    left-to-right scan is replaced, the scan resuming after the match. *)
Fixpoint sub_go (pat repl : string) (skip : nat) (s : string) : string :=
  match s with
  | EmptyString => ""
  | String c s' =>
      match skip with
      | S k => sub_go pat repl k s'
      | O =>
          if prefix pat s
          then repl +++ sub_go pat repl (String.length pat - 1) s'
          else String c (sub_go pat repl 0 s')
      end
  end.

Definition replace_all (pat repl s : string) : string := sub_go pat repl 0 s.

Definition quote : ascii := "'"%char.
Definition newline : ascii := "010"%char.
Definition backslash : ascii := "\"%char.

(** [re.sub('\'|.\n', '', s)]: at each position the first alternative (a
    quote) is tried, then the second (any character but a newline, followed
    by a newline); a match is dropped, anything else is kept. *)
Fixpoint strip_quotes_and_eol (s : string) : string :=
  match s with
  | EmptyString => ""
  | String c s' =>
      if Ascii.eqb c quote then strip_quotes_and_eol s'
      else
        match s' with
        | String d s'' =>
            if negb (Ascii.eqb c newline) && Ascii.eqb d newline
            then strip_quotes_and_eol s''
            else String c (strip_quotes_and_eol s')
        | EmptyString => String c ""
        end
  end.

Fixpoint has_char (a : ascii) (s : string) : bool :=
  match s with
  | EmptyString => false
  | String c s' => Ascii.eqb a c || has_char a s'
  end.

End Text.

(* ================================================================== *)
(** ** Data *)
(* ================================================================== *)

(** The [cluster] argument of [create_cluster] is a Python dictionary. *)
Unset Elimination Schemes.
Inductive pyval : Type :=
| PNone
| PBool (b : bool)
| PStr (s : string)
| PList (l : list pyval)
| PDict (items : list (string * pyval)).
Set Elimination Schemes.

(** [ClusterMetadata] (declared in [dataproc/types.py], outside the sources):
    the identity of the cluster and the two fields the manager resolves. *)
Record ClusterMetadata : Type := {
  project_id : string;
  region : string;
  cluster_name : string;
  master_url : option string;
  dashboard : option string
}.

(** The part of [dataproc_v1.Cluster] that the manager reads:
    [status.state.name], [config.config_bucket] and
    [config.endpoint_config.http_ports]. *)
Record Cluster : Type := {
  status_state_name : string;
  config_bucket : string;
  http_ports : list (string * string)
}.

(** Exceptions.  [ApiError] stands for whatever the client libraries raise;
    its [code] is [None] when the exception object has no [code] attribute. *)
Inductive exn : Type :=
| ApiError (code : option Z) (detail : string)
| ValueError (msg : string)
| AttributeError (attr : string)
| IndexError
| KeyError (key : string)
| UnicodeDecodeError
| ReError (template : string).

(** [e.code]: only library exceptions can carry the attribute. *)
Definition exc_code (e : exn) : option Z :=
  match e with
  | ApiError c _ => c
  | _ => None
  end.

Inductive reply (A : Type) : Type :=
| Ok (a : A)
| Err (e : exn).
Arguments Ok {A} a.
Arguments Err {A} e.

Inductive level : Type := INFO | ERROR.

(** What the manager does to the outside world, in the order it does it. *)
Inductive event : Type :=
| CreateClusterRpc (project region : string) (cluster : pyval)
| DeleteClusterRpc (project region name : string)
| GetClusterRpc (project region name : string)
| FsList (dir : option string)
| FsOpen (path : string)
| FsDelete (paths : list string)
| Sleep (seconds : nat)
| Log (lvl : level) (msg : string).

(** The external collaborators.  Every answer may depend on the history of
    events before the call.  [fs_open] gives the lines of [readlines()], each
    as the outcome of its [decode()].  [re_template] expands a replacement
    string that contains a backslash (the escape rules of [re] are not part
    of the sources). *)
Record Platform : Type := {
  create_cluster_rpc : list event -> string -> string -> pyval -> option exn;
  delete_cluster_rpc : list event -> string -> string -> string -> option exn;
  get_cluster_rpc : list event -> string -> string -> string -> reply Cluster;
  fs_list : list event -> option string -> reply (list string);
  fs_open : list event -> string -> reply (list (reply string));
  fs_delete : list event -> list string -> option exn;
  re_template : string -> reply string
}.

(** The mutable attributes of a [DataprocClusterManager], with the history. *)
Record State : Type := {
  cluster_metadata : ClusterMetadata;
  _staging_directory : option string;
  trace : list event
}.

Definition record_event (ev : event) (s : State) : State :=
  {| cluster_metadata := cluster_metadata s;
     _staging_directory := _staging_directory s;
     trace := trace s ++ [ev] |}.

Definition set_staging_directory (d : option string) (s : State) : State :=
  {| cluster_metadata := cluster_metadata s;
     _staging_directory := d;
     trace := trace s |}.

Definition set_master_url (u : option string) (s : State) : State :=
  {| cluster_metadata :=
       {| project_id := project_id (cluster_metadata s);
          region := region (cluster_metadata s);
          cluster_name := cluster_name (cluster_metadata s);
          master_url := u;
          dashboard := dashboard (cluster_metadata s) |};
     _staging_directory := _staging_directory s;
     trace := trace s |}.

Definition set_dashboard (d : option string) (s : State) : State :=
  {| cluster_metadata :=
       {| project_id := project_id (cluster_metadata s);
          region := region (cluster_metadata s);
          cluster_name := cluster_name (cluster_metadata s);
          master_url := master_url (cluster_metadata s);
          dashboard := d |};
     _staging_directory := _staging_directory s;
     trace := trace s |}.

(** How a method call ends: it returns, it raises, or it is still in the
    polling loop when the budget of polls is used up. *)
Inductive outcome (A : Type) : Type :=
| Returned (a : A) (s : State)
| Raised (e : exn) (s : State)
| Polling (s : State).
Arguments Returned {A} a s.
Arguments Raised {A} e s.
Arguments Polling {A} s.

Definition final {A} (o : outcome A) : State :=
  match o with
  | Returned _ s | Raised _ s | Polling s => s
  end.

Definition M (A : Type) : Type := State -> outcome A.

Definition ret {A} (a : A) : M A := fun s => Returned a s.

Definition raise {A} (e : exn) : M A := fun s => Raised e s.

Definition bind {A B} (m : M A) (k : A -> M B) : M B :=
  fun s =>
    match m s with
    | Returned a s' => k a s'
    | Raised e s' => Raised e s'
    | Polling s' => Polling s'
    end.

Notation "x <- m ;; k" := (bind m (fun x => k))
  (at level 61, m at next level, right associativity).
Notation "m ;;; k" := (bind m (fun _ => k))
  (at level 61, right associativity).

(** [try: body / except Exception as e: handler e / else: orelse]. *)
Definition try_except_else {A B} (body : M A) (handler : exn -> M B)
    (orelse : A -> M B) : M B :=
  fun s =>
    match body s with
    | Returned a s' => orelse a s'
    | Raised e s' => handler e s'
    | Polling s' => Polling s'
    end.

Definition try_except {A} (body : M A) (handler : exn -> M A) : M A :=
  try_except_else body handler ret.

Definition get {A} (f : State -> A) : M A := fun s => Returned (f s) s.

Definition modify (f : State -> State) : M unit := fun s => Returned tt (f s).

Definition lift_reply {A} (r : reply A) : M A :=
  match r with
  | Ok a => ret a
  | Err e => raise e
  end.

(** Truth value of an [Optional[str]]. *)
Definition truthy (v : option string) : bool :=
  match v with
  | None => false
  | Some s => negb (String.eqb s "")
  end.

(* ================================================================== *)
(** ** The manager *)
(* ================================================================== *)

Definition DATAPROC_STAGING_LOG_NAME : string := "dataproc-startup-script_output".

Definition nl : string := String Text.newline "".

Section Manager.

Variable P : Platform.

(** *** Calls to the collaborators *)

Definition log (lvl : level) (msg : string) : M unit :=
  modify (record_event (Log lvl msg)).

Definition sleep (seconds : nat) : M unit :=
  modify (record_event (Sleep seconds)).

Definition client_create_cluster (cluster : pyval) : M unit :=
  fun s =>
    let md := cluster_metadata s in
    let s' := record_event
                (CreateClusterRpc (project_id md) (region md) cluster) s in
    match create_cluster_rpc P (trace s) (project_id md) (region md) cluster with
    | None => Returned tt s'
    | Some e => Raised e s'
    end.

Definition client_delete_cluster : M unit :=
  fun s =>
    let md := cluster_metadata s in
    let s' := record_event
                (DeleteClusterRpc (project_id md) (region md) (cluster_name md))
                s in
    match delete_cluster_rpc P (trace s) (project_id md) (region md)
            (cluster_name md) with
    | None => Returned tt s'
    | Some e => Raised e s'
    end.

Definition client_get_cluster : M Cluster :=
  fun s =>
    let md := cluster_metadata s in
    let s' := record_event
                (GetClusterRpc (project_id md) (region md) (cluster_name md))
                s in
    match get_cluster_rpc P (trace s) (project_id md) (region md)
            (cluster_name md) with
    | Ok c => Returned c s'
    | Err e => Raised e s'
    end.

Definition fs__list (dir : option string) : M (list string) :=
  fun s =>
    let s' := record_event (FsList dir) s in
    match fs_list P (trace s) dir with
    | Ok files => Returned files s'
    | Err e => Raised e s'
    end.

Definition fs_readlines (path : string) : M (list (reply string)) :=
  fun s =>
    let s' := record_event (FsOpen path) s in
    match fs_open P (trace s) path with
    | Ok content => Returned content s'
    | Err e => Raised e s'
    end.

Definition fs__delete (paths : list string) : M unit :=
  fun s =>
    let s' := record_event (FsDelete paths) s in
    match fs_delete P (trace s) paths with
    | None => Returned tt s'
    | Some e => Raised e s'
    end.

(** [e.code] inside a handler: an exception without the attribute makes the
    handler itself raise [AttributeError]. *)
Definition code_of (e : exn) : M Z :=
  match exc_code e with
  | Some c => ret c
  | None => raise (AttributeError "code")
  end.

(** [s.split(sep)]. *)
Definition py_split (sep s : string) : M (list string) :=
  if String.eqb sep "" then raise (ValueError "empty separator")
  else ret (Text.split_go sep 0 s).

(** [l[i]]. *)
Definition py_index (l : list string) (i : nat) : M string :=
  match nth_error l i with
  | Some x => ret x
  | None => raise IndexError
  end.

(** The entry of [key] in the map of HTTP ports, if there is one. *)
Fixpoint lookup (key : string) (d : list (string * string)) : option string :=
  match d with
  | [] => None
  | (k, v) :: d' => if String.eqb k key then Some v else lookup key d'
  end.

(** [d[key]] on the map of HTTP ports.  The descriptor is a
    [dataproc_v1.Cluster] and its [http_ports] a protobuf map of strings:
    reading a key that is absent raises nothing and gives the empty
    string. *)
Definition py_getitem (d : list (string * string)) (key : string) : M string :=
  match lookup key d with
  | Some v => ret v
  | None => ret ""
  end.

(** [re.sub(pat, repl, s)] for a literal pattern: the replacement is taken
    as it is when it has no backslash, and expanded as a template (before
    any search) when it has one. *)
Definition re_sub (pat repl s : string) : M string :=
  if Text.has_char Text.backslash repl
  then expanded <- lift_reply (re_template P repl) ;;
       ret (Text.replace_all pat expanded s)
  else ret (Text.replace_all pat repl s).

(** *** get_cluster_details *)

Definition get_cluster_details : M Cluster :=
  try_except client_get_cluster
    (fun e =>
       name <- get (fun s => cluster_name (cluster_metadata s)) ;;
       project <- get (fun s => project_id (cluster_metadata s)) ;;
       code <- code_of e ;;
       if (code =? 403)%Z then
         log ERROR ("Due to insufficient project permissions, " +++
                    "unable to retrieve information for cluster: " +++ name) ;;;
         raise (ValueError ("You cannot view clusters in project: " +++ project))
       else if (code =? 404)%Z then
         log ERROR ("Cluster does not exist: " +++ name) ;;;
         raise (ValueError ("Cluster was not found: " +++ name))
       else
         log ERROR ("Failed to get information for cluster: " +++ name) ;;;
         raise e).

(** *** wait_for_cluster_to_provision

    [fuel] bounds the number of polls; a run that needs more ends in
    [Polling]. *)
Fixpoint wait_for_cluster_to_provision (fuel : nat) : M unit :=
  match fuel with
  | O => fun s => Polling s
  | S fuel' =>
      details <- get_cluster_details ;;
      if String.eqb (status_state_name details) "CREATING"
      then sleep 15 ;;; wait_for_cluster_to_provision fuel'
      else ret tt
  end.

(** *** get_staging_location *)

(** The [for file in self._fs._list(gcs_path)] loop; [None] when it ends
    without reaching its [return]. *)
Fixpoint first_staging_match (name : string) (files : list string)
    : M (option string) :=
  match files with
  | [] => ret None
  | path :: rest =>
      if Text.contains name path
      then pieces <- py_split name path ;;
           dir <- py_index pieces 0 ;;
           ret (Some dir)
      else first_staging_match name rest
  end.

Definition get_staging_location (fuel : nat) : M (option string) :=
  try_except
    (wait_for_cluster_to_provision fuel ;;;
     cluster_details <- get_cluster_details ;;
     let bucket_name := config_bucket cluster_details in
     let gcs_path :=
       "gs://" +++ bucket_name +++ "/google-cloud-dataproc-metainfo/" in
     files <- fs__list (Some gcs_path) ;;
     name <- get (fun s => cluster_name (cluster_metadata s)) ;;
     first_staging_match name files)
    (fun e =>
       name <- get (fun s => cluster_name (cluster_metadata s)) ;;
       log ERROR ("Failed to get " +++ name +++ " cluster staging bucket.") ;;;
       raise e).

(** *** parse_master_url_and_dashboard *)

Definition parse_master_url_and_dashboard (line : string)
    : M (option string * option string) :=
  cluster_details <- get_cluster_details ;;
  yarn_endpoint <- py_getitem (http_ports cluster_details)
                     "YARN ResourceManager" ;;
  pieces <- py_split "Found Web Interface " line ;;
  rest <- py_index pieces 1 ;;
  segment <- py_split " of application " rest ;;
  master_url <- py_index segment 0 ;;
  raw_id <- py_index segment 1 ;;
  let application_id := Text.strip_quotes_and_eol raw_id in
  dashboard <- re_sub "/yarn/"
                 ("/gateway/default/yarn/proxy/" +++ application_id +++ "/")
                 yarn_endpoint ;;
  ret (Some master_url, Some dashboard).

(** *** get_master_url_and_dashboard *)

(** The inner loop over [content.readlines()]; [None] when it ends without
    reaching its [return]. *)
Fixpoint scan_lines (lines : list (reply string))
    : M (option (option string * option string)) :=
  match lines with
  | [] => ret None
  | line :: rest =>
      decoded_line <- lift_reply line ;;
      if Text.contains "Found Web Interface" decoded_line
      then r <- parse_master_url_and_dashboard decoded_line ;; ret (Some r)
      else scan_lines rest
  end.

(** The outer loop over [startup_logs]. *)
Fixpoint scan_logs (startup_logs : list string)
    : M (option string * option string) :=
  match startup_logs with
  | [] => ret (None, None)
  | log_path :: rest =>
      content <- fs_readlines log_path ;;
      found <- scan_lines content ;;
      match found with
      | Some r => ret r
      | None => scan_logs rest
      end
  end.

Definition get_master_url_and_dashboard : M (option string * option string) :=
  dir <- get _staging_directory ;;
  files <- fs__list dir ;;
  let startup_logs :=
    filter (Text.contains DATAPROC_STAGING_LOG_NAME) files in
  scan_logs startup_logs.

(** *** create_cluster

    The [progress_indicated] decorator only drives a notebook spinner around
    the call and is left out. *)

Definition create_cluster (fuel : nat) (cluster : pyval) : M unit :=
  url <- get (fun s => master_url (cluster_metadata s)) ;;
  if truthy url then ret tt
  else
    try_except_else
      (client_create_cluster cluster)
      (fun e =>
         name <- get (fun s => cluster_name (cluster_metadata s)) ;;
         project <- get (fun s => project_id (cluster_metadata s)) ;;
         reg <- get (fun s => region (cluster_metadata s)) ;;
         code <- code_of e ;;
         if (code =? 409)%Z then
           log INFO ("Cluster " +++ name +++ " already exists. Continuing...")
         else if (code =? 403)%Z then
           log ERROR ("Due to insufficient project permissions, " +++
                      "unable to create cluster: " +++ name) ;;;
           raise (ValueError
                    ("You cannot create a cluster in project: " +++ project))
         else if (code =? 501)%Z then
           log ERROR ("Invalid region provided: " +++ reg) ;;;
           raise (ValueError ("Region " +++ reg +++ " does not exist!"))
         else
           log ERROR ("Unable to create cluster: " +++ name) ;;;
           raise e)
      (fun _ =>
         name <- get (fun s => cluster_name (cluster_metadata s)) ;;
         log INFO ("Cluster created successfully: " +++ name) ;;;
         dir <- get_staging_location fuel ;;
         modify (set_staging_directory dir) ;;;
         r <- get_master_url_and_dashboard ;;
         modify (set_master_url (fst r)) ;;;
         modify (set_dashboard (snd r))).

(** *** create_flink_cluster *)

Definition flink_cluster (md : ClusterMetadata) : pyval :=
  PDict
    [ ("project_id", PStr (project_id md));
      ("cluster_name", PStr (cluster_name md));
      ("config",
       PDict
         [ ("software_config",
            PDict [ ("optional_components", PList [PStr "DOCKER"; PStr "FLINK"]) ]);
           ("gce_cluster_config",
            PDict
              [ ("metadata", PDict [ ("flink-start-yarn-session", PStr "true") ]);
                ("service_account_scopes",
                 PList [PStr "https://www.googleapis.com/auth/cloud-platform"]) ]);
           ("endpoint_config",
            PDict [ ("enable_http_port_access", PBool true) ]) ]);
      ("labels", PDict [ ("domain", PStr "goog-dataflow-notebook") ]) ].

Definition create_flink_cluster (fuel : nat) : M unit :=
  md <- get cluster_metadata ;;
  create_cluster fuel (flink_cluster md).

(** *** cleanup *)

Definition cleanup_staging_files : M unit :=
  dir <- get _staging_directory ;;
  if truthy dir then
    staging_files <- fs__list dir ;;
    fs__delete staging_files
  else ret tt.

Definition cleanup : M unit :=
  try_except
    (client_delete_cluster ;;;
     cleanup_staging_files)
    (fun e =>
       name <- get (fun s => cluster_name (cluster_metadata s)) ;;
       project <- get (fun s => project_id (cluster_metadata s)) ;;
       code <- code_of e ;;
       if (code =? 403)%Z then
         log ERROR ("Due to insufficient project permissions, " +++
                    "unable to clean up the default cluster: " +++ name) ;;;
         raise (ValueError
                  ("You cannot delete a cluster in project: " +++ project))
       else if (code =? 404)%Z then
         log ERROR ("Cluster does not exist: " +++ name) ;;;
         raise (ValueError ("Cluster was not found: " +++ name))
       else
         log ERROR ("Failed to delete cluster: " +++ name) ;;;
         raise e).

End Manager.

(* ================================================================== *)
(** ** Observing a run *)
(* ================================================================== *)

(** The events a run added to the history it started from. *)
Definition new_events {A} (s : State) (o : outcome A) : list event :=
  skipn (length (trace s)) (trace (final o)).

(** What a run gives back to its caller: a value or an exception, or
    nothing yet when it is still polling. *)
Definition result {A} (o : outcome A) : option (reply A) :=
  match o with
  | Returned a _ => Some (Ok a)
  | Raised e _ => Some (Err e)
  | Polling _ => None
  end.

Definition is_fs_delete (ev : event) : bool :=
  match ev with FsDelete _ => true | _ => false end.

Definition is_delete_rpc (ev : event) : bool :=
  match ev with DeleteClusterRpc _ _ _ => true | _ => false end.

Definition is_rpc (ev : event) : bool :=
  match ev with
  | CreateClusterRpc _ _ _ | DeleteClusterRpc _ _ _ | GetClusterRpc _ _ _ => true
  | _ => false
  end.

Definition count (p : event -> bool) (evs : list event) : nat :=
  length (filter p evs).

(** The state [s] with the history [t]. *)
Definition with_trace (s : State) (t : list event) : State :=
  {| cluster_metadata := cluster_metadata s;
     _staging_directory := _staging_directory s;
     trace := t |}.

Definition get_event (md : ClusterMetadata) : event :=
  GetClusterRpc (project_id md) (region md) (cluster_name md).

Definition delete_event (md : ClusterMetadata) : event :=
  DeleteClusterRpc (project_id md) (region md) (cluster_name md).

(** [k] rounds of the polling loop: a fetch, then a sleep of 15. *)
Fixpoint polls (md : ClusterMetadata) (k : nat) : list event :=
  match k with
  | O => []
  | S k' => get_event md :: Sleep 15 :: polls md k'
  end.

(** A decoded line that announces the web interface. *)
Definition has_marker (line : string) : bool :=
  Text.contains "Found Web Interface" line.

Definition is_startup_log (path : string) : bool :=
  Text.contains DATAPROC_STAGING_LOG_NAME path.

(** A line of a log that decodes and does not announce the web interface. *)
Definition silent (line : reply string) : bool :=
  match line with
  | Ok text => negb (has_marker text)
  | Err _ => false
  end.

(** The object store answers the successive [open] calls on [logs], the
    first one made at history [t], with [contents]. *)
Fixpoint serves (P : Platform) (t : list event) (logs : list string)
    (contents : list (list (reply string))) : Prop :=
  match logs, contents with
  | [], [] => True
  | path :: logs', lines :: contents' =>
      fs_open P t path = Ok lines
      /\ serves P (t ++ [FsOpen path]) logs' contents'
  | _, _ => False
  end.

(** The value the loop of [get_staging_location] reaches: the text before
    the cluster name in the first listed path that contains it. *)
Definition staging_location (name : string) (files : list string)
    : option string :=
  match find (Text.contains name) files with
  | Some path => Some (hd "" (Text.split_go name 0 path))
  | None => None
  end.

(** A computation only ever adds to the history. *)
Definition grows {A} (m : M A) : Prop :=
  forall s, exists evs, trace (final (m s)) = trace s ++ evs.

(* ================================================================== *)
(** ** Sample platforms and states *)
(* ================================================================== *)

Module Sample.

Definition metadata : ClusterMetadata :=
  {| project_id := "test-project";
     region := "us-central1";
     cluster_name := "test-cluster";
     master_url := None;
     dashboard := None |}.

(** A manager that has just been constructed. *)
Definition fresh : State :=
  {| cluster_metadata := metadata; _staging_directory := None; trace := [] |}.

(** A manager whose cluster is already resolved. *)
Definition resolved : State :=
  set_dashboard (Some "https://proxy/gateway/default/yarn/proxy/app_1/")
    (set_master_url (Some "host:50000") fresh).

Definition is_get_rpc (ev : event) : bool :=
  match ev with GetClusterRpc _ _ _ => true | _ => false end.

Fixpoint file_content (path : string) (files : list (string * list (reply string)))
    : option (list (reply string)) :=
  match files with
  | [] => None
  | (p, c) :: rest => if String.eqb p path then Some c else file_content path rest
  end.

(** A platform whose create and delete RPCs answer [create_answer] and
    [delete_answer], whose cluster stays in CREATING for the first [polls]
    fetches and then runs with the given YARN endpoint, and whose bucket
    holds [files]. *)
Definition platform (create_answer delete_answer : option exn) (polls : nat)
    (endpoint : string) (files : list (string * list (reply string)))
    : Platform :=
  {| create_cluster_rpc := fun _ _ _ _ => create_answer;
     delete_cluster_rpc := fun _ _ _ _ => delete_answer;
     get_cluster_rpc := fun t _ _ _ =>
       Ok {| status_state_name :=
               if (count is_get_rpc t <? polls)%nat then "CREATING" else "RUNNING";
             config_bucket := "bucket";
             http_ports := [("YARN ResourceManager", endpoint)] |};
     fs_list := fun _ dir =>
       match dir with
       | Some d => Ok (filter (prefix d) (map fst files))
       | None => Err (ApiError None "no path")
       end;
     fs_open := fun _ path =>
       match file_content path files with
       | Some c => Ok c
       | None => Err (ApiError None "no such object")
       end;
     fs_delete := fun _ _ => None;
     re_template := fun r => Err (ReError r) |}.

Definition yarn : string := "https://proxy.example/yarn/".

Definition staging : string :=
  "gs://bucket/google-cloud-dataproc-metainfo/1234/".

Definition marker_line : string :=
  "... Found Web Interface host:50000 of application 'application_123_0001'." +++ nl.

(** A bucket whose startup logs never announce the web interface. *)
Definition silent_files : list (string * list (reply string)) :=
  [ (staging +++ "test-cluster-m/dataproc-startup-script_output",
     [Ok ("starting" +++ nl); Ok ("still starting" +++ nl)]);
    (staging +++ "test-cluster-w-0/dataproc-startup-script_output",
     [Ok ("worker up" +++ nl)]) ].

(** A bucket whose second startup log announces it on its second line. *)
Definition announcing_files : list (string * list (reply string)) :=
  [ (staging +++ "test-cluster-w-0/dataproc-startup-script_output",
     [Ok ("worker up" +++ nl)]);
    (staging +++ "test-cluster-m/other_output",
     [Ok marker_line]);
    (staging +++ "test-cluster-m/dataproc-startup-script_output",
     [Ok ("starting" +++ nl); Ok marker_line; Err UnicodeDecodeError]) ].

End Sample.

(* ================================================================== *)
(** ** Observations of the manager and repeated calls *)
(* ================================================================== *)

(** A computation leaves the observation [f] of the manager as it was,
    however it ends. *)
Definition preserves {A B} (f : State -> B) (m : M A) : Prop :=
  forall s, f (final (m s)) = f s.

(** An observation that does not read the history. *)
Definition trace_blind {B} (f : State -> B) : Prop :=
  forall s t, f (with_trace s t) = f s.

(** The two attributes a method can assign. *)
Definition attributes (s : State) : ClusterMetadata * option string :=
  (cluster_metadata s, _staging_directory s).

(** The identity of the cluster. *)
Definition identity (s : State) : string * string * string :=
  (project_id (cluster_metadata s), region (cluster_metadata s),
   cluster_name (cluster_metadata s)).

(** A computation leaves the observation [f] as it was whenever it does not
    return. *)
Definition unchanged_unless_returned {A B} (f : State -> B) (m : M A) : Prop :=
  forall s,
    match m s with
    | Returned _ _ => True
    | o => f (final o) = f s
    end.

(** [n] calls of [create_cluster] in a row, as long as none raises. *)
Fixpoint create_cluster_repeatedly (P : Platform) (fuel : nat) (cluster : pyval)
    (n : nat) : M unit :=
  match n with
  | O => ret tt
  | S n' =>
      create_cluster P fuel cluster ;;;
      create_cluster_repeatedly P fuel cluster n'
  end.

(** The line of a startup log that announces the web interface, in the
    format given by the docstring of [parse_master_url_and_dashboard]:
    [{text} Found Web Interface {master_url} of application
    '{application_id}'.\n] (the blank after [{text}] belongs to [text]). *)
Definition startup_line (text master_url application_id : string) : string :=
  text +++ "Found Web Interface " +++ master_url +++ " of application '"
  +++ application_id +++ "'." +++ nl.

(** More sample platforms. *)
Module SampleMore.

(** A control plane whose get-cluster RPC always raises [e]. *)
Definition failing_get (e : exn) : Platform :=
  {| create_cluster_rpc := fun _ _ _ _ => None;
     delete_cluster_rpc := fun _ _ _ _ => None;
     get_cluster_rpc := fun _ _ _ _ => Err e;
     fs_list := fun _ _ => Ok [];
     fs_open := fun _ _ => Ok [];
     fs_delete := fun _ _ => None;
     re_template := fun r => Err (ReError r) |}.

(** An object store that lists one object and whose deletion raises [e],
    under a control plane that accepts every RPC. *)
Definition failing_delete (e : exn) : Platform :=
  {| create_cluster_rpc := fun _ _ _ _ => None;
     delete_cluster_rpc := fun _ _ _ _ => None;
     get_cluster_rpc := fun _ _ _ _ => Err (ApiError None "unused");
     fs_list := fun _ _ => Ok ["gs://bucket/a"];
     fs_open := fun _ _ => Ok [];
     fs_delete := fun _ _ => Some e;
     re_template := fun r => Err (ReError r) |}.

(** A cluster that answers CREATING to the first [polls] fetches and whose
    get-cluster RPC raises [e] from then on. *)
Definition vanishing (polls : nat) (e : exn) : Platform :=
  {| create_cluster_rpc := fun _ _ _ _ => None;
     delete_cluster_rpc := fun _ _ _ _ => None;
     get_cluster_rpc := fun t _ _ _ =>
       if (count Sample.is_get_rpc t <? polls)%nat
       then Ok {| status_state_name := "CREATING"; config_bucket := "bucket";
                  http_ports := [] |}
       else Err e;
     fs_list := fun _ _ => Ok [];
     fs_open := fun _ _ => Ok [];
     fs_delete := fun _ _ => None;
     re_template := fun r => Err (ReError r) |}.

(** A startup log with a line that does not decode before the line that
    announces the web interface. *)
Definition garbled_files : list (string * list (reply string)) :=
  [ (Sample.staging +++ "test-cluster-m/dataproc-startup-script_output",
     [Ok ("starting" +++ nl); Err UnicodeDecodeError; Ok Sample.marker_line]) ].

(** A startup log whose first line with "Found Web Interface" stops there. *)
Definition terse_files : list (string * list (reply string)) :=
  [ (Sample.staging +++ "test-cluster-m/dataproc-startup-script_output",
     [Ok ("Found Web Interface" +++ nl); Ok Sample.marker_line]) ].

(** A running cluster over an object store whose listing raises [e]. *)
Definition unlistable (e : exn) : Platform :=
  {| create_cluster_rpc := fun _ _ _ _ => None;
     delete_cluster_rpc := fun _ _ _ _ => None;
     get_cluster_rpc := fun _ _ _ _ =>
       Ok {| status_state_name := "RUNNING"; config_bucket := "bucket";
             http_ports := [] |};
     fs_list := fun _ _ => Err e;
     fs_open := fun _ _ => Ok [];
     fs_delete := fun _ _ => None;
     re_template := fun r => Err (ReError r) |}.

End SampleMore.

Lemma skipn_length_app {A} (l l' : list A) : skipn (length l) (l ++ l') = l'.
Proof. induction l; simpl; auto. Qed.

Lemma new_events_record {A} (s : State) (o : outcome A) (evs : list event) :
  trace (final o) = trace s ++ evs -> new_events s o = evs.
Proof. unfold new_events. intros ->. apply skipn_length_app. Qed.

(** Unfolds the monad and the calls to the collaborators. *)
Ltac run :=
  cbv beta iota zeta delta
    [bind ret raise get modify try_except try_except_else lift_reply log sleep
     code_of client_create_cluster client_delete_cluster client_get_cluster
     fs__list fs_readlines fs__delete py_index py_getitem].

(* ================================================================== *)
(** ** create_cluster: short-circuit and error triage *)
(* ================================================================== *)

(** C2. When [cluster_metadata.master_url] is set (neither [None] nor empty),
    [create_cluster] returns at once, for every cluster specification: the
    state, history included, is the one it started from, so no RPC was made,
    no object was listed or read, and nothing was mutated. *)
Theorem create_cluster_short_circuit :
  forall (P : Platform) (fuel : nat) (cluster : pyval) (s : State),
    truthy (master_url (cluster_metadata s)) = true ->
    create_cluster P fuel cluster s = Returned tt s
    /\ new_events s (create_cluster P fuel cluster s) = [].
Proof.
  intros P fuel cluster s H.
  assert (E : create_cluster P fuel cluster s = Returned tt s).
  { unfold create_cluster. run. rewrite H. reflexivity. }
  split; [exact E|].
  rewrite E. apply new_events_record; auto. simpl. now rewrite app_nil_r.
Qed.

Lemma create_cluster_short_circuit_witness :
  truthy (master_url (cluster_metadata Sample.resolved)) = true
  /\ create_cluster (Sample.platform None None 0 Sample.yarn []) 0
       (flink_cluster Sample.metadata) Sample.resolved
     = Returned tt Sample.resolved.
Proof.
  split; [reflexivity|].
  apply (create_cluster_short_circuit
           (Sample.platform None None 0 Sample.yarn []) 0
           (flink_cluster Sample.metadata) Sample.resolved).
  reflexivity.
Defined.

(** The state after the create RPC was attempted and [msg] was logged. *)
Lemma create_cluster_raises :
  forall (P : Platform) (fuel : nat) (cluster : pyval) (s : State) (e : exn)
         (c : Z),
    truthy (master_url (cluster_metadata s)) = false ->
    create_cluster_rpc P (trace s) (project_id (cluster_metadata s))
      (region (cluster_metadata s)) cluster = Some e ->
    exc_code e = Some c ->
    let md := cluster_metadata s in
    let attempted :=
      record_event (CreateClusterRpc (project_id md) (region md) cluster) s in
    create_cluster P fuel cluster s =
      if (c =? 409)%Z then
        Returned tt
          (record_event
             (Log INFO ("Cluster " +++ cluster_name md +++
                        " already exists. Continuing...")) attempted)
      else if (c =? 403)%Z then
        Raised
          (ValueError ("You cannot create a cluster in project: " +++
                       project_id md))
          (record_event
             (Log ERROR ("Due to insufficient project permissions, " +++
                         "unable to create cluster: " +++ cluster_name md))
             attempted)
      else if (c =? 501)%Z then
        Raised
          (ValueError ("Region " +++ region md +++ " does not exist!"))
          (record_event
             (Log ERROR ("Invalid region provided: " +++ region md)) attempted)
      else
        Raised e
          (record_event
             (Log ERROR ("Unable to create cluster: " +++ cluster_name md))
             attempted).
Proof.
  intros P fuel cluster s e c Hurl Hrpc Hcode md attempted.
  unfold create_cluster. run. rewrite Hurl, Hrpc. cbn [cluster_metadata record_event].
  rewrite Hcode.
  destruct (c =? 409)%Z; [reflexivity|].
  destruct (c =? 403)%Z; [reflexivity|].
  destruct (c =? 501)%Z; reflexivity.
Qed.

(** C1. When the create RPC raises inside [create_cluster]: code 409 is
    swallowed, the call returns and [cluster_metadata] is what it was; code
    403 raises [ValueError] with the message "You cannot create a cluster in
    project: <project id>" and [cluster_metadata] is what it was; code 501
    raises [ValueError] with the message "Region <region> does not exist!"
    and [cluster_metadata] is what it was. *)
Theorem create_cluster_error_triage :
  forall (P : Platform) (fuel : nat) (cluster : pyval) (s : State) (e : exn),
    truthy (master_url (cluster_metadata s)) = false ->
    create_cluster_rpc P (trace s) (project_id (cluster_metadata s))
      (region (cluster_metadata s)) cluster = Some e ->
    let md := cluster_metadata s in
    (exc_code e = Some 409%Z ->
     exists s', create_cluster P fuel cluster s = Returned tt s'
                /\ cluster_metadata s' = md)
    /\ (exc_code e = Some 403%Z ->
        exists s',
          create_cluster P fuel cluster s =
            Raised (ValueError ("You cannot create a cluster in project: " +++
                                project_id md)) s'
          /\ cluster_metadata s' = md)
    /\ (exc_code e = Some 501%Z ->
        exists s',
          create_cluster P fuel cluster s =
            Raised (ValueError ("Region " +++ region md +++ " does not exist!"))
              s'
          /\ cluster_metadata s' = md).
Proof.
  intros P fuel cluster s e Hurl Hrpc md.
  repeat split; intros Hcode;
    rewrite (create_cluster_raises P fuel cluster s e _ Hurl Hrpc Hcode);
    cbn [Z.eqb Pos.eqb]; eexists; split; reflexivity.
Qed.

Lemma create_cluster_error_triage_witness :
  exists s',
    create_cluster
      (Sample.platform (Some (ApiError (Some 403%Z) "denied")) None 0
         Sample.yarn []) 0 PNone Sample.fresh
    = Raised (ValueError "You cannot create a cluster in project: test-project")
        s'
    /\ cluster_metadata s' = Sample.metadata.
Proof.
  apply (create_cluster_error_triage
           (Sample.platform (Some (ApiError (Some 403%Z) "denied")) None 0
              Sample.yarn []) 0 PNone Sample.fresh
           (ApiError (Some 403%Z) "denied")); reflexivity.
Defined.

(** An exception without a [code] attribute never reaches the triage: reading
    [e.code] in the handler raises [AttributeError], and nothing is logged. *)
Lemma create_cluster_exception_without_code :
  forall (P : Platform) (fuel : nat) (cluster : pyval) (s : State) (e : exn),
    truthy (master_url (cluster_metadata s)) = false ->
    create_cluster_rpc P (trace s) (project_id (cluster_metadata s))
      (region (cluster_metadata s)) cluster = Some e ->
    exc_code e = None ->
    create_cluster P fuel cluster s =
      Raised (AttributeError "code")
        (record_event
           (CreateClusterRpc (project_id (cluster_metadata s))
              (region (cluster_metadata s)) cluster) s).
Proof.
  intros P fuel cluster s e Hurl Hrpc Hcode.
  unfold create_cluster. run. rewrite Hurl, Hrpc.
  cbn [cluster_metadata record_event]. rewrite Hcode. reflexivity.
Qed.

(** C6.  The handler of [create_cluster] catches every exception but reads
    [e.code] before anything else.  When the create RPC raises an exception
    that has no such attribute, the exception is neither logged nor
    re-raised: the call raises [AttributeError] in its place, and all it has
    done is the create RPC. *)
Theorem create_cluster_loses_exception_without_code :
  forall (P : Platform) (fuel : nat) (cluster : pyval) (s : State) (e : exn),
    let md := cluster_metadata s in
    truthy (master_url md) = false ->
    create_cluster_rpc P (trace s) (project_id md) (region md) cluster = Some e ->
    exc_code e = None ->
    result (create_cluster P fuel cluster s) = Some (Err (AttributeError "code"))
    /\ new_events s (create_cluster P fuel cluster s)
       = [CreateClusterRpc (project_id md) (region md) cluster]
    /\ attributes (final (create_cluster P fuel cluster s)) = attributes s.
Proof.
  intros P fuel cluster s e md Hurl Hrpc Hcode.
  rewrite (create_cluster_exception_without_code P fuel cluster s e Hurl Hrpc
             Hcode).
  repeat split. apply new_events_record. reflexivity.
Qed.

Lemma create_cluster_loses_exception_without_code_witness :
  let P :=
    Sample.platform (Some (ApiError None "deadline exceeded")) None 0
      Sample.yarn [] in
  result (create_cluster P 0 PNone Sample.fresh)
  = Some (Err (AttributeError "code"))
  /\ result (create_cluster P 0 PNone Sample.fresh)
     <> Some (Err (ApiError None "deadline exceeded"))
  /\ new_events Sample.fresh (create_cluster P 0 PNone Sample.fresh)
     = [CreateClusterRpc "test-project" "us-central1" PNone].
Proof.
  intros P.
  destruct (create_cluster_loses_exception_without_code P 0 PNone Sample.fresh
              (ApiError None "deadline exceeded") eq_refl eq_refl eq_refl)
    as (Hresult & Hevents & _).
  split; [exact Hresult|]. split; [|exact Hevents].
  rewrite Hresult. discriminate.
Defined.

(** For an exception that carries a code, and one that is none of 409, 403
    and 501, the handler does log and re-raise: [create_cluster] records
    "Unable to create cluster: <name>" as an error and raises that same
    exception; nothing else happens. *)
Theorem create_cluster_reraises_unknown :
  forall (P : Platform) (fuel : nat) (cluster : pyval) (s : State) (e : exn)
         (c : Z),
    truthy (master_url (cluster_metadata s)) = false ->
    create_cluster_rpc P (trace s) (project_id (cluster_metadata s))
      (region (cluster_metadata s)) cluster = Some e ->
    exc_code e = Some c ->
    c <> 409%Z -> c <> 403%Z -> c <> 501%Z ->
    let md := cluster_metadata s in
    create_cluster P fuel cluster s =
      Raised e
        (record_event
           (Log ERROR ("Unable to create cluster: " +++ cluster_name md))
           (record_event
              (CreateClusterRpc (project_id md) (region md) cluster) s)).
Proof.
  intros P fuel cluster s e c Hurl Hrpc Hcode H409 H403 H501 md.
  rewrite (create_cluster_raises P fuel cluster s e c Hurl Hrpc Hcode).
  apply Z.eqb_neq in H409, H403, H501. now rewrite H409, H403, H501.
Qed.

Lemma create_cluster_reraises_unknown_witness :
  create_cluster
    (Sample.platform (Some (ApiError (Some 500%Z) "backend error")) None 0
       Sample.yarn []) 0 PNone Sample.fresh
  = Raised (ApiError (Some 500%Z) "backend error")
      {| cluster_metadata := Sample.metadata;
         _staging_directory := None;
         trace := [ CreateClusterRpc "test-project" "us-central1" PNone;
                    Log ERROR "Unable to create cluster: test-cluster" ] |}.
Proof.
  apply (create_cluster_reraises_unknown
           (Sample.platform (Some (ApiError (Some 500%Z) "backend error")) None
              0 Sample.yarn []) 0 PNone Sample.fresh
           (ApiError (Some 500%Z) "backend error") 500%Z);
    try reflexivity; discriminate.
Defined.

(* ================================================================== *)
(** ** cleanup *)
(* ================================================================== *)

(** C8. When [_staging_directory] is [None] and the delete RPC succeeds,
    [cleanup] returns after issuing that one delete-cluster RPC and nothing
    else: one delete RPC, no deletion in the object store. *)
Theorem cleanup_without_staging_directory :
  forall (P : Platform) (s : State),
    _staging_directory s = None ->
    delete_cluster_rpc P (trace s) (project_id (cluster_metadata s))
      (region (cluster_metadata s)) (cluster_name (cluster_metadata s)) = None ->
    cleanup P s = Returned tt (record_event (delete_event (cluster_metadata s)) s)
    /\ new_events s (cleanup P s) = [delete_event (cluster_metadata s)]
    /\ count is_delete_rpc (new_events s (cleanup P s)) = 1
    /\ count is_fs_delete (new_events s (cleanup P s)) = 0.
Proof.
  intros P s Hdir Hrpc.
  assert (E : cleanup P s
              = Returned tt (record_event (delete_event (cluster_metadata s)) s)).
  { unfold cleanup, cleanup_staging_files. run. rewrite Hrpc.
    cbn [_staging_directory record_event]. rewrite Hdir. reflexivity. }
  assert (N : new_events s (cleanup P s) = [delete_event (cluster_metadata s)]).
  { rewrite E. apply new_events_record. reflexivity. }
  rewrite N. repeat split; auto.
Qed.

Lemma cleanup_without_staging_directory_witness :
  cleanup (Sample.platform None None 0 Sample.yarn Sample.silent_files)
    Sample.fresh
  = Returned tt
      (with_trace Sample.fresh
         [DeleteClusterRpc "test-project" "us-central1" "test-cluster"]).
Proof.
  apply (cleanup_without_staging_directory
           (Sample.platform None None 0 Sample.yarn Sample.silent_files)
           Sample.fresh); reflexivity.
Defined.

(** C10. When the delete RPC raises, [cleanup] raises too, and what it did is
    the RPC followed by log records only: no object of the store is deleted
    (nor listed). *)
Theorem cleanup_failed_delete_keeps_staging_files :
  forall (P : Platform) (s : State) (e : exn),
    delete_cluster_rpc P (trace s) (project_id (cluster_metadata s))
      (region (cluster_metadata s)) (cluster_name (cluster_metadata s)) = Some e ->
    exists (e' : exn) (logs : list event),
      cleanup P s
      = Raised e'
          (with_trace s (trace s ++ delete_event (cluster_metadata s) :: logs))
      /\ Forall (fun ev => exists lvl msg, ev = Log lvl msg) logs
      /\ count is_fs_delete (new_events s (cleanup P s)) = 0.
Proof.
  intros P s e Hrpc.
  assert (E : exists e' lvl msgs,
             cleanup P s
             = Raised e'
                 (with_trace s
                    (trace s ++ delete_event (cluster_metadata s)
                       :: map (Log lvl) msgs))).
  { unfold cleanup. run. rewrite Hrpc. cbn [cluster_metadata record_event].
    destruct (exc_code e) as [c|].
    - destruct (c =? 403)%Z; [|destruct (c =? 404)%Z];
        eexists; exists ERROR; eexists [_]; unfold with_trace, record_event;
        cbn [trace cluster_metadata _staging_directory map];
        rewrite <- app_assoc; reflexivity.
    - eexists; exists ERROR; exists []; reflexivity. }
  destruct E as (e' & lvl & msgs & E).
  exists e', (map (Log lvl) msgs). split; [exact E|]. split.
  - apply Forall_forall. intros ev Hin. apply in_map_iff in Hin.
    destruct Hin as (m & <- & _). eauto.
  - rewrite E.
    erewrite new_events_record by (cbn [final with_trace trace]; reflexivity).
    unfold count. cbn [filter is_fs_delete delete_event].
    clear E. induction msgs; simpl; auto.
Qed.

Lemma cleanup_failed_delete_keeps_staging_files_witness :
  exists (e' : exn) (logs : list event),
    cleanup
      (Sample.platform None (Some (ApiError (Some 404%Z) "gone")) 0 Sample.yarn
         Sample.silent_files)
      (set_staging_directory (Some Sample.staging) Sample.fresh)
    = Raised e'
        (with_trace (set_staging_directory (Some Sample.staging) Sample.fresh)
           (DeleteClusterRpc "test-project" "us-central1" "test-cluster" :: logs))
    /\ Forall (fun ev => exists lvl msg, ev = Log lvl msg) logs
    /\ count is_fs_delete
         (new_events (set_staging_directory (Some Sample.staging) Sample.fresh)
            (cleanup
               (Sample.platform None (Some (ApiError (Some 404%Z) "gone")) 0
                  Sample.yarn Sample.silent_files)
               (set_staging_directory (Some Sample.staging) Sample.fresh)))
       = 0.
Proof.
  apply (cleanup_failed_delete_keeps_staging_files
           (Sample.platform None (Some (ApiError (Some 404%Z) "gone")) 0
              Sample.yarn Sample.silent_files)
           (set_staging_directory (Some Sample.staging) Sample.fresh)
           (ApiError (Some 404%Z) "gone")).
  reflexivity.
Defined.

(* ================================================================== *)
(** ** wait_for_cluster_to_provision *)
(* ================================================================== *)

Lemma with_trace_record (s : State) (ev : event) :
  record_event ev s = with_trace s (trace s ++ [ev]).
Proof. reflexivity. Qed.

Lemma with_trace_same (s : State) : with_trace s (trace s) = s.
Proof. destruct s; reflexivity. Qed.

(** A fetch that the control plane answers returns the descriptor and adds
    the RPC to the history. *)
Lemma get_cluster_details_ok (P : Platform) (s : State) (d : Cluster) :
  get_cluster_rpc P (trace s) (project_id (cluster_metadata s))
    (region (cluster_metadata s)) (cluster_name (cluster_metadata s)) = Ok d ->
  get_cluster_details P s
  = Returned d (record_event (get_event (cluster_metadata s)) s).
Proof.
  intros H. unfold get_cluster_details. run. rewrite H. reflexivity.
Qed.

(** The polling loop ends once a fetch reports a status other than CREATING. *)
Lemma polling_returns :
  forall (P : Platform) (k : nat) (s : State) (last : Cluster),
    let md := cluster_metadata s in
    (forall i, i < k ->
       exists d,
         get_cluster_rpc P (trace s ++ polls md i) (project_id md) (region md)
           (cluster_name md) = Ok d
         /\ status_state_name d = "CREATING") ->
    get_cluster_rpc P (trace s ++ polls md k) (project_id md) (region md)
      (cluster_name md) = Ok last ->
    status_state_name last <> "CREATING" ->
    forall fuel, k < fuel ->
      wait_for_cluster_to_provision P fuel s
      = Returned tt (with_trace s (trace s ++ polls md k ++ [get_event md])).
Proof.
  intros P k. induction k as [|k IH]; intros s last md Hcreating Hlast Hstate fuel Hfuel.
  - destruct fuel as [|fuel]; [lia|]. simpl in *. rewrite app_nil_r in Hlast.
    unfold bind. rewrite (get_cluster_details_ok P s last Hlast).
    apply String.eqb_neq in Hstate. rewrite Hstate. reflexivity.
  - destruct fuel as [|fuel]; [lia|].
    destruct (Hcreating 0 ltac:(lia)) as (d & Hd & Hs).
    simpl in Hd. rewrite app_nil_r in Hd.
    cbn [wait_for_cluster_to_provision]. unfold bind at 1.
    rewrite (get_cluster_details_ok P s d Hd).
    apply String.eqb_eq in Hs. rewrite Hs.
    unfold bind, sleep, modify.
    set (s2 := record_event (Sleep 15) (record_event (get_event (cluster_metadata s)) s)).
    assert (Ht : forall l, trace s2 ++ l = trace s ++ get_event md :: Sleep 15 :: l).
    { intros l. unfold s2. simpl. now rewrite <- !app_assoc. }
    rewrite (IH s2 last).
    + rewrite Ht. reflexivity.
    + intros i Hi. rewrite Ht. apply (Hcreating (S i)). lia.
    + rewrite Ht. exact Hlast.
    + exact Hstate.
    + lia.
Qed.

(** C7. Let the control plane answer the first [k] fetches of the polling
    loop with CREATING and the next one with another status.  Then
    [wait_for_cluster_to_provision] returns (any budget above [k] polls is
    enough), and what it did is exactly: [k] times a fetch followed by a
    sleep of 15, then the last fetch.  The attributes of the manager are
    untouched. *)
Theorem wait_for_cluster_to_provision_terminates :
  forall (P : Platform) (k : nat) (s : State) (last : Cluster),
    let md := cluster_metadata s in
    (forall i, i < k ->
       exists d,
         get_cluster_rpc P (trace s ++ polls md i) (project_id md) (region md)
           (cluster_name md) = Ok d
         /\ status_state_name d = "CREATING") ->
    get_cluster_rpc P (trace s ++ polls md k) (project_id md) (region md)
      (cluster_name md) = Ok last ->
    status_state_name last <> "CREATING" ->
    forall fuel, k < fuel ->
      wait_for_cluster_to_provision P fuel s
      = Returned tt (with_trace s (trace s ++ polls md k ++ [get_event md])).
Proof.
  intros P k s last md Hcreating Hlast Hstate fuel Hfuel.
  exact (polling_returns P k s last Hcreating Hlast Hstate fuel Hfuel).
Qed.

Lemma wait_for_cluster_to_provision_terminates_witness :
  wait_for_cluster_to_provision
    (Sample.platform None None 2 Sample.yarn Sample.silent_files) 3 Sample.fresh
  = Returned tt
      (with_trace Sample.fresh
         [ GetClusterRpc "test-project" "us-central1" "test-cluster"; Sleep 15;
           GetClusterRpc "test-project" "us-central1" "test-cluster"; Sleep 15;
           GetClusterRpc "test-project" "us-central1" "test-cluster" ]).
Proof.
  apply (wait_for_cluster_to_provision_terminates
           (Sample.platform None None 2 Sample.yarn Sample.silent_files) 2
           Sample.fresh
           {| status_state_name := "RUNNING"; config_bucket := "bucket";
              http_ports := [("YARN ResourceManager", Sample.yarn)] |}).
  - intros i Hi.
    destruct i as [|[|i]]; [eexists; split; reflexivity ..|lia].
  - reflexivity.
  - discriminate.
  - lia.
Defined.

(* ================================================================== *)
(** ** Facts about the text operations *)
(* ================================================================== *)

Module TextFacts.
Import Text.

Lemma append_assoc (a b c : string) : (a +++ b) +++ c = a +++ b +++ c.
Proof. induction a; simpl; congruence. Qed.

Lemma append_nil_r (a : string) : a +++ "" = a.
Proof. induction a; simpl; congruence. Qed.

Lemma length_append (a b : string) :
  String.length (a +++ b) = String.length a + String.length b.
Proof. induction a; simpl; congruence. Qed.

Lemma prefix_append (p x : string) : prefix p (p +++ x) = true.
Proof.
  induction p as [|c p IH]; simpl; [now destruct x|].
  destruct (ascii_dec c c); [exact IH|congruence].
Qed.

(** Only the first [length p] characters of a text decide whether [p] is a
    prefix of it. *)
Lemma prefix_long (p a b : string) :
  String.length p <= String.length a -> prefix p (a +++ b) = prefix p a.
Proof.
  revert a. induction p as [|c p IH]; intros a Hlen.
  - destruct a; simpl; [now destruct b|reflexivity].
  - destruct a as [|d a]; simpl in *; [lia|].
    destruct (ascii_dec c d); [apply IH; lia|reflexivity].
Qed.

Lemma contains_head (p s : string) :
  contains p s = false -> prefix p s = false.
Proof. destruct s; simpl; intros H; apply orb_false_iff in H; tauto. Qed.

Lemma contains_tail (p : string) (c : ascii) (s : string) :
  contains p (String c s) = false -> contains p s = false.
Proof.
  change (contains p (String c s)) with (prefix p (String c s) || contains p s).
  intros H. apply orb_false_iff in H. tauto.
Qed.

Lemma sub_go_skip (pat repl a b : string) :
  sub_go pat repl (String.length a) (a +++ b) = sub_go pat repl 0 b.
Proof.
  induction a as [|c a IH]; simpl; [|exact IH].
  destruct b; reflexivity.
Qed.

(** A text without the pattern is left as it is. *)
Lemma replace_all_absent (pat repl s : string) :
  contains pat s = false -> replace_all pat repl s = s.
Proof.
  unfold replace_all. induction s as [|c s IH]; intros H; [reflexivity|].
  cbn [sub_go]. rewrite (contains_head _ _ H).
  f_equal. apply IH. exact (contains_tail _ _ _ H).
Qed.

Lemma sub_go_at_pattern (pat repl post : string) :
  pat <> "" ->
  sub_go pat repl 0 (pat +++ post) = repl +++ sub_go pat repl 0 post.
Proof.
  destruct pat as [|h t]; [congruence|]. intros _.
  cbn [append sub_go].
  change (String h (t +++ post)) with (String h t +++ post).
  rewrite prefix_append. f_equal.
  cbn [String.length]. rewrite Nat.sub_succ, Nat.sub_0_r.
  apply sub_go_skip.
Qed.

(** The pattern at its first occurrence is replaced, and the scan goes on
    after it. *)
Lemma replace_all_first (q : string) (c : ascii) (repl pre post : string) :
  let pat := q +++ String c "" in
  contains pat (pre +++ q) = false ->
  replace_all pat repl (pre +++ pat +++ post)
  = pre +++ repl +++ replace_all pat repl post.
Proof.
  intros pat. unfold replace_all.
  induction pre as [|a pre IH]; intros H.
  - cbn [append]. apply sub_go_at_pattern.
    unfold pat. destruct q; discriminate.
  - cbn [append sub_go].
    assert (Hpre : prefix pat (String a (pre +++ pat +++ post)) = false).
    { change (String a (pre +++ pat +++ post))
        with (String a pre +++ pat +++ post).
      unfold pat at 2. rewrite append_assoc, <- (append_assoc (String a pre)).
      rewrite prefix_long.
      - exact (contains_head _ _ H).
      - unfold pat. rewrite !length_append. simpl. lia. }
    rewrite Hpre. f_equal. apply IH. exact (contains_tail _ _ _ H).
Qed.

Lemma prefix_split (p s : string) :
  prefix p s = true -> exists t, s = p +++ t.
Proof.
  revert s. induction p as [|c p IH]; intros s H.
  - exists s. reflexivity.
  - destruct s as [|d s]; simpl in H; [discriminate|].
    destruct (ascii_dec c d) as [->|]; [|discriminate].
    destruct (IH s H) as [t ->]. exists t. reflexivity.
Qed.

Lemma prefix_short (p s : string) :
  String.length s < String.length p -> prefix p s = false.
Proof.
  revert s. induction p as [|c p IH]; intros s H; simpl in H; [lia|].
  destruct s as [|d s]; simpl in *; [reflexivity|].
  destruct (ascii_dec c d); [apply IH; lia|reflexivity].
Qed.

Lemma contains_short (p s : string) :
  String.length s < String.length p -> contains p s = false.
Proof.
  induction s as [|d s IH]; intros H.
  - cbn [contains]. rewrite prefix_short by exact H. reflexivity.
  - change (contains p (String d s)) with (prefix p (String d s) || contains p s).
    rewrite prefix_short by exact H. simpl in H. apply IH. lia.
Qed.

(** A text that contains the pattern splits at its first occurrence. *)
Lemma first_occurrence (q : string) (c : ascii) (s : string) :
  let pat := q +++ String c "" in
  contains pat s = true ->
  exists pre post,
    s = pre +++ pat +++ post /\ contains pat (pre +++ q) = false.
Proof.
  intros pat. induction s as [|d s IH]; intros H.
  - unfold pat in H. destruct q; discriminate.
  - change (contains pat (String d s))
      with (prefix pat (String d s) || contains pat s) in H.
    destruct (prefix pat (String d s)) eqn:Hp.
    + destruct (prefix_split _ _ Hp) as [post Hpost].
      exists "", post. split; [exact Hpost|].
      cbn [append]. apply contains_short.
      unfold pat. rewrite length_append. simpl. lia.
    + simpl in H. destruct (IH H) as (pre & post & Hs & Hfirst).
      exists (String d pre), post. split; [cbn [append]; now rewrite Hs|].
      change (contains pat (String d pre +++ q))
        with (prefix pat (String d pre +++ q) || contains pat (pre +++ q)).
      rewrite Hfirst, orb_false_r.
      rewrite <- (prefix_long pat (String d pre +++ q) (String c "" +++ post)).
      * rewrite append_assoc, <- (append_assoc q). fold pat.
        cbn [append]. rewrite <- Hs. exact Hp.
      * unfold pat. rewrite !length_append. simpl. lia.
Qed.

End TextFacts.

(* ================================================================== *)
(** ** parse_master_url_and_dashboard *)
(* ================================================================== *)

(** The example line of the specification, parsed against an endpoint whose
    first "/yarn/" comes after [pre]. *)
Lemma parse_example_at_first_yarn :
  forall (P : Platform) (s : State) (details : Cluster) (pre post : string),
    let md := cluster_metadata s in
    let line :=
      "... Found Web Interface host:50000 of application 'application_123_0001'."
      +++ nl in
    let proxy := "/gateway/default/yarn/proxy/application_123_0001/" in
    get_cluster_rpc P (trace s) (project_id md) (region md) (cluster_name md)
    = Ok details ->
    lookup "YARN ResourceManager" (http_ports details)
    = Some (pre +++ "/yarn/" +++ post) ->
    Text.contains "/yarn/" (pre +++ "/yarn") = false ->
    parse_master_url_and_dashboard P line s
    = Returned
        (Some "host:50000",
         Some (pre +++ proxy +++ Text.replace_all "/yarn/" proxy post))
        (record_event (get_event md) s)
    /\ (Text.contains "/yarn/" post = false ->
        Text.replace_all "/yarn/" proxy post = post).
Proof.
  intros P s details pre post md line proxy Hrpc Hports Hfirst.
  split; [|apply TextFacts.replace_all_absent].
  unfold parse_master_url_and_dashboard. unfold bind at 1.
  rewrite (get_cluster_details_ok P s details Hrpc).
  unfold bind at 1, py_getitem. rewrite Hports. unfold ret at 1.
  change (py_split "Found Web Interface " line)
    with (@ret (list string)
            ["... "; "host:50000 of application 'application_123_0001'." +++ nl]).
  unfold bind at 1, ret at 1. unfold bind at 1, py_index at 1.
  cbn [nth_error]. unfold ret at 1.
  change (py_split " of application "
            ("host:50000 of application 'application_123_0001'." +++ nl))
    with (@ret (list string) ["host:50000"; "'application_123_0001'." +++ nl]).
  unfold bind at 1, ret at 1. unfold bind at 1, py_index at 1.
  cbn [nth_error]. unfold ret at 1. unfold bind at 1, py_index at 1.
  cbn [nth_error]. unfold ret at 1.
  change (Text.strip_quotes_and_eol ("'application_123_0001'." +++ nl))
    with "application_123_0001".
  change ("/gateway/default/yarn/proxy/" +++ "application_123_0001" +++ "/")
    with proxy.
  unfold bind, re_sub.
  change (Text.has_char Text.backslash proxy) with false. cbv iota. unfold ret.
  do 2 f_equal. f_equal.
  exact (TextFacts.replace_all_first "/yarn" "/"%char proxy pre post Hfirst).
Qed.


(** C4. On the line "... Found Web Interface host:50000 of application
    'application_123_0001'.\n" and with any YARN ResourceManager endpoint
    that contains "/yarn/", [parse_master_url_and_dashboard] returns the
    master URL "host:50000" and, as dashboard, the endpoint with "/yarn/"
    replaced by "/gateway/default/yarn/proxy/application_123_0001/": with
    [pre] the text before the first "/yarn/" and [post] the text after it,
    the dashboard is [pre], the proxy path, then [post] (in which any further
    "/yarn/" is replaced alike). *)
Theorem parse_master_url_and_dashboard_example :
  forall (P : Platform) (s : State) (details : Cluster) (endpoint : string),
    let md := cluster_metadata s in
    let line :=
      "... Found Web Interface host:50000 of application 'application_123_0001'."
      +++ nl in
    let proxy := "/gateway/default/yarn/proxy/application_123_0001/" in
    get_cluster_rpc P (trace s) (project_id md) (region md) (cluster_name md)
    = Ok details ->
    lookup "YARN ResourceManager" (http_ports details) = Some endpoint ->
    Text.contains "/yarn/" endpoint = true ->
    exists pre post,
      endpoint = pre +++ "/yarn/" +++ post
      /\ Text.contains "/yarn/" (pre +++ "/yarn") = false
      /\ parse_master_url_and_dashboard P line s
         = Returned
             (Some "host:50000",
              Some (pre +++ proxy +++ Text.replace_all "/yarn/" proxy post))
             (record_event (get_event md) s)
      /\ (Text.contains "/yarn/" post = false ->
          Text.replace_all "/yarn/" proxy post = post).
Proof.
  intros P s details endpoint md line proxy Hrpc Hports Hyarn.
  destruct (TextFacts.first_occurrence "/yarn" "/"%char endpoint Hyarn)
    as (pre & post & Hsplit & Hfirst).
  exists pre, post. split; [exact Hsplit|]. split; [exact Hfirst|].
  rewrite Hsplit in Hports.
  exact (parse_example_at_first_yarn P s details pre post Hrpc Hports Hfirst).
Qed.

Lemma parse_master_url_and_dashboard_example_witness :
  exists pre post,
    Sample.yarn = pre +++ "/yarn/" +++ post
    /\ Text.contains "/yarn/" (pre +++ "/yarn") = false
    /\ parse_master_url_and_dashboard
         (Sample.platform None None 0 Sample.yarn []) Sample.marker_line
         Sample.fresh
       = Returned
           (Some "host:50000",
            Some (pre +++ "/gateway/default/yarn/proxy/application_123_0001/"
                  +++ Text.replace_all "/yarn/"
                        "/gateway/default/yarn/proxy/application_123_0001/" post))
           (with_trace Sample.fresh
              [GetClusterRpc "test-project" "us-central1" "test-cluster"])
    /\ (Text.contains "/yarn/" post = false ->
        Text.replace_all "/yarn/"
          "/gateway/default/yarn/proxy/application_123_0001/" post = post).
Proof.
  apply (parse_master_url_and_dashboard_example
           (Sample.platform None None 0 Sample.yarn []) Sample.fresh
           {| status_state_name := "RUNNING"; config_bucket := "bucket";
              http_ports := [("YARN ResourceManager", Sample.yarn)] |}
           Sample.yarn); reflexivity.
Defined.

(** C3, as stated, fails: the same line parsed against two control planes
    whose descriptors carry different YARN endpoints gives two different
    dashboards, and each run issues a get-cluster RPC. *)
Lemma parse_master_url_and_dashboard_reads_descriptor :
  let P1 := Sample.platform None None 0 "https://a.example/yarn/" [] in
  let P2 := Sample.platform None None 0 "https://b.example/yarn/" [] in
  let run1 := parse_master_url_and_dashboard P1 Sample.marker_line Sample.fresh in
  let run2 := parse_master_url_and_dashboard P2 Sample.marker_line Sample.fresh in
  result run1
  = Some (Ok (Some "host:50000",
              Some "https://a.example/gateway/default/yarn/proxy/application_123_0001/"))
  /\ result run2
     = Some (Ok (Some "host:50000",
                 Some "https://b.example/gateway/default/yarn/proxy/application_123_0001/"))
  /\ result run1 <> result run2
  /\ count is_rpc (new_events Sample.fresh run1) = 1
  /\ ~ (forall (Q1 Q2 : Platform) (line : string) (s : State),
          result (parse_master_url_and_dashboard Q1 line s)
          = result (parse_master_url_and_dashboard Q2 line s)).
Proof.
  cbv zeta. repeat split; try reflexivity.
  - discriminate.
  - intros H.
    specialize (H (Sample.platform None None 0 "https://a.example/yarn/" [])
                  (Sample.platform None None 0 "https://b.example/yarn/" [])
                  Sample.marker_line Sample.fresh).
    discriminate H.
Qed.

(** Case analysis on the innermost scrutinee of the goal. *)
Ltac break_match :=
  match goal with
  | |- context [match ?x with _ => _ end] =>
      lazymatch x with
      | context [match _ with _ => _ end] => fail
      | _ => destruct x
      end
  end; cbv beta iota.

Ltac break_matches := repeat break_match.

(** C3, amended.  [parse_master_url_and_dashboard] issues one RPC, the fetch
    of the cluster descriptor.  When that fetch succeeds, what the call gives
    back is a function of the line and of the descriptor's
    "YARN ResourceManager" endpoint (for one and the same [re] library): two
    runs on the same line whose descriptors agree on that endpoint give the
    same result, whatever else differs; and the master URL of two runs that
    return is the same even when the endpoints differ. *)
Theorem parse_master_url_and_dashboard_depends_on_line_and_endpoint :
  forall (P1 P2 : Platform) (s1 s2 : State) (line : string) (d1 d2 : Cluster),
    get_cluster_rpc P1 (trace s1) (project_id (cluster_metadata s1))
      (region (cluster_metadata s1)) (cluster_name (cluster_metadata s1))
    = Ok d1 ->
    get_cluster_rpc P2 (trace s2) (project_id (cluster_metadata s2))
      (region (cluster_metadata s2)) (cluster_name (cluster_metadata s2))
    = Ok d2 ->
    let run1 := parse_master_url_and_dashboard P1 line s1 in
    let run2 := parse_master_url_and_dashboard P2 line s2 in
    new_events s1 run1 = [get_event (cluster_metadata s1)]
    /\ (lookup "YARN ResourceManager" (http_ports d1)
        = lookup "YARN ResourceManager" (http_ports d2) ->
        (forall r, re_template P1 r = re_template P2 r) ->
        result run1 = result run2)
    /\ (forall u1 b1 u2 b2,
          result run1 = Some (Ok (u1, b1)) ->
          result run2 = Some (Ok (u2, b2)) ->
          u1 = u2).
Proof.
  intros P1 P2 s1 s2 line d1 d2 H1 H2 run1 run2. subst run1 run2.
  unfold parse_master_url_and_dashboard, bind.
  rewrite (get_cluster_details_ok P1 s1 d1 H1).
  rewrite (get_cluster_details_ok P2 s2 d2 H2).
  unfold py_split, re_sub. cbn [String.eqb Ascii.eqb Bool.eqb]. run.
  repeat split.
  - apply new_events_record. break_matches; reflexivity.
  - intros Hports Hre. rewrite Hports.
    repeat (try rewrite Hre; break_match); reflexivity.
  - intros u1 b1 u2 b2. break_matches; cbn [result]; congruence.
Qed.

Lemma parse_master_url_and_dashboard_depends_on_line_and_endpoint_witness :
  result
    (parse_master_url_and_dashboard
       (Sample.platform None None 0 Sample.yarn []) Sample.marker_line
       Sample.fresh)
  = result
      (parse_master_url_and_dashboard
         (Sample.platform (Some (ApiError None "down")) None 5 Sample.yarn
            Sample.silent_files)
         Sample.marker_line Sample.resolved).
Proof.
  apply (parse_master_url_and_dashboard_depends_on_line_and_endpoint
           (Sample.platform None None 0 Sample.yarn [])
           (Sample.platform (Some (ApiError None "down")) None 5 Sample.yarn
              Sample.silent_files)
           Sample.fresh Sample.resolved Sample.marker_line
           {| status_state_name := "RUNNING"; config_bucket := "bucket";
              http_ports := [("YARN ResourceManager", Sample.yarn)] |}
           {| status_state_name := "CREATING"; config_bucket := "bucket";
              http_ports := [("YARN ResourceManager", Sample.yarn)] |}
           eq_refl eq_refl); reflexivity.
Defined.

(* ================================================================== *)
(** ** get_master_url_and_dashboard *)
(* ================================================================== *)

Lemma scan_lines_silent (P : Platform) (lines : list (reply string)) (s : State) :
  forallb silent lines = true -> scan_lines P lines s = Returned None s.
Proof.
  induction lines as [|line lines IH]; intros H; [reflexivity|].
  simpl in H. apply andb_true_iff in H. destruct H as [Hline Hrest].
  destruct line as [text|e]; [|discriminate].
  cbn [scan_lines]. unfold bind, lift_reply, ret.
  unfold silent, has_marker in Hline. apply negb_true_iff in Hline.
  rewrite Hline. apply IH, Hrest.
Qed.

Lemma scan_lines_found (P : Platform) (quiet : list string) (line : string)
    (rest : list (reply string)) (s : State) :
  forallb (fun text => negb (has_marker text)) quiet = true ->
  has_marker line = true ->
  scan_lines P (map Ok quiet ++ Ok line :: rest) s
  = (r <- parse_master_url_and_dashboard P line ;; ret (Some r)) s.
Proof.
  intros Hquiet Hline.
  induction quiet as [|text quiet IH]; cbn [map app scan_lines].
  - unfold bind at 1, lift_reply, ret at 1.
    unfold has_marker in Hline. rewrite Hline. reflexivity.
  - simpl in Hquiet. apply andb_true_iff in Hquiet. destruct Hquiet as [Ht Hq].
    unfold bind at 1, lift_reply, ret at 1.
    unfold has_marker in Ht. apply negb_true_iff in Ht. rewrite Ht.
    apply IH, Hq.
Qed.

Lemma scan_logs_silent (P : Platform) :
  forall (logs : list string) (contents : list (list (reply string)))
         (s : State),
    serves P (trace s) logs contents ->
    forallb (forallb silent) contents = true ->
    scan_logs P logs s
    = Returned (None, None) (with_trace s (trace s ++ map FsOpen logs)).
Proof.
  induction logs as [|path logs IH]; intros contents s Hserves Hsilent.
  - simpl. rewrite app_nil_r, with_trace_same. reflexivity.
  - destruct contents as [|lines contents]; [contradiction|].
    destruct Hserves as [Hopen Hserves].
    simpl in Hsilent. apply andb_true_iff in Hsilent.
    destruct Hsilent as [Hlines Hcontents].
    cbn [scan_logs]. unfold bind, fs_readlines. rewrite Hopen.
    rewrite (scan_lines_silent P lines _ Hlines).
    rewrite (IH contents (record_event (FsOpen path) s) Hserves Hcontents).
    unfold with_trace. cbn [record_event trace cluster_metadata _staging_directory map].
    now rewrite <- app_assoc.
Qed.

Lemma scan_logs_found (P : Platform) :
  forall (before : list string) (path : string) (after : list string)
         (contents : list (list (reply string))) (quiet : list string)
         (line : string) (rest : list (reply string)) (s : State),
    serves P (trace s) before contents ->
    forallb (forallb silent) contents = true ->
    fs_open P (trace s ++ map FsOpen before) path
    = Ok (map Ok quiet ++ Ok line :: rest) ->
    forallb (fun text => negb (has_marker text)) quiet = true ->
    has_marker line = true ->
    scan_logs P (before ++ path :: after) s
    = parse_master_url_and_dashboard P line
        (with_trace s (trace s ++ map FsOpen before ++ [FsOpen path])).
Proof.
  induction before as [|b before IH];
    intros path after contents quiet line rest s Hserves Hsilent Hopen Hquiet Hline.
  - cbn [app map] in *. rewrite app_nil_r in Hopen.
    cbn [scan_logs]. unfold bind at 1, fs_readlines. rewrite Hopen.
    unfold bind at 1.
    rewrite (scan_lines_found P quiet line rest _ Hquiet Hline).
    rewrite <- with_trace_record. unfold bind, ret.
    destruct (parse_master_url_and_dashboard P line
                (record_event (FsOpen path) s)); reflexivity.
  - destruct contents as [|lines contents]; [contradiction|].
    destruct Hserves as [Hb Hserves].
    simpl in Hsilent. apply andb_true_iff in Hsilent.
    destruct Hsilent as [Hlines Hcontents].
    cbn [app scan_logs]. unfold bind at 1, fs_readlines. rewrite Hb.
    unfold bind at 1. rewrite (scan_lines_silent P lines _ Hlines).
    rewrite (IH path after contents quiet line rest
               (record_event (FsOpen b) s) Hserves Hcontents); auto.
    + unfold with_trace.
      cbn [record_event trace cluster_metadata _staging_directory map app].
      now rewrite <- !app_assoc.
    + cbn [record_event trace map] in *. now rewrite <- app_assoc.
Qed.

(** C5. Let the listing of the staging directory succeed, and call startup
    logs the listed paths that contain "dataproc-startup-script_output", in
    the order of the listing.

    - If every startup log opens and none of its lines announces the web
      interface, [get_master_url_and_dashboard] returns [(None, None)].
    - If the startup logs before [path] are such, and [path] opens on lines
      of which [line] is the first that contains "Found Web Interface", the
      call ends as [parse_master_url_and_dashboard] on [line] does; the logs
      after [path] and the lines after [line] are not looked at. *)
Theorem get_master_url_and_dashboard_first_match :
  forall (P : Platform) (s : State) (files : list string),
    fs_list P (trace s) (_staging_directory s) = Ok files ->
    let listed := record_event (FsList (_staging_directory s)) s in
    let startup_logs := filter is_startup_log files in
    (forall contents,
        serves P (trace listed) startup_logs contents ->
        forallb (forallb silent) contents = true ->
        get_master_url_and_dashboard P s
        = Returned (None, None)
            (with_trace s (trace listed ++ map FsOpen startup_logs)))
    /\ (forall before path after contents quiet line rest,
          startup_logs = before ++ path :: after ->
          serves P (trace listed) before contents ->
          forallb (forallb silent) contents = true ->
          fs_open P (trace listed ++ map FsOpen before) path
          = Ok (map Ok quiet ++ Ok line :: rest) ->
          forallb (fun text => negb (has_marker text)) quiet = true ->
          has_marker line = true ->
          get_master_url_and_dashboard P s
          = parse_master_url_and_dashboard P line
              (with_trace s
                 (trace listed ++ map FsOpen before ++ [FsOpen path]))).
Proof.
  intros P s files Hlist listed startup_logs.
  assert (E : get_master_url_and_dashboard P s = scan_logs P startup_logs listed).
  { unfold get_master_url_and_dashboard. run. rewrite Hlist. reflexivity. }
  split.
  - intros contents Hserves Hsilent. rewrite E.
    exact (scan_logs_silent P startup_logs contents listed Hserves Hsilent).
  - intros before path after contents quiet line rest Hlogs Hserves Hsilent
      Hopen Hquiet Hline.
    rewrite E, Hlogs.
    exact (scan_logs_found P before path after contents quiet line rest listed
             Hserves Hsilent Hopen Hquiet Hline).
Qed.

Lemma get_master_url_and_dashboard_first_match_witness :
  get_master_url_and_dashboard
    (Sample.platform None None 0 Sample.yarn Sample.silent_files)
    (set_staging_directory (Some Sample.staging) Sample.fresh)
  = Returned (None, None)
      (with_trace (set_staging_directory (Some Sample.staging) Sample.fresh)
         [ FsList (Some Sample.staging);
           FsOpen (Sample.staging +++ "test-cluster-m/dataproc-startup-script_output");
           FsOpen (Sample.staging +++ "test-cluster-w-0/dataproc-startup-script_output") ])
  /\ get_master_url_and_dashboard
       (Sample.platform None None 0 Sample.yarn Sample.announcing_files)
       (set_staging_directory (Some Sample.staging) Sample.fresh)
     = Returned
         (Some "host:50000",
          Some "https://proxy.example/gateway/default/yarn/proxy/application_123_0001/")
         (with_trace (set_staging_directory (Some Sample.staging) Sample.fresh)
            [ FsList (Some Sample.staging);
              FsOpen (Sample.staging +++ "test-cluster-w-0/dataproc-startup-script_output");
              FsOpen (Sample.staging +++ "test-cluster-m/dataproc-startup-script_output");
              GetClusterRpc "test-project" "us-central1" "test-cluster" ]).
Proof.
  split.
  - apply (proj1 (get_master_url_and_dashboard_first_match
                    (Sample.platform None None 0 Sample.yarn Sample.silent_files)
                    (set_staging_directory (Some Sample.staging) Sample.fresh)
                    (map fst Sample.silent_files) eq_refl)
             (map snd Sample.silent_files)).
    + repeat split.
    + reflexivity.
  - rewrite (proj2 (get_master_url_and_dashboard_first_match
                      (Sample.platform None None 0 Sample.yarn
                         Sample.announcing_files)
                      (set_staging_directory (Some Sample.staging) Sample.fresh)
                      (map fst Sample.announcing_files) eq_refl)
               [Sample.staging +++ "test-cluster-w-0/dataproc-startup-script_output"]
               (Sample.staging +++ "test-cluster-m/dataproc-startup-script_output")
               []
               [[Ok ("worker up" +++ nl)]]
               ["starting" +++ nl]
               Sample.marker_line
               [Err UnicodeDecodeError]
               eq_refl (conj eq_refl I) eq_refl eq_refl eq_refl eq_refl).
    reflexivity.
Defined.

(* ================================================================== *)
(** ** The history only grows *)
(* ================================================================== *)

Create HintDb grows.

Lemma grows_ret {A} (a : A) : grows (ret a).
Proof. intros s. exists []. simpl. now rewrite app_nil_r. Qed.

Lemma grows_raise {A} (e : exn) : grows (@raise A e).
Proof. intros s. exists []. simpl. now rewrite app_nil_r. Qed.

Lemma grows_get {A} (f : State -> A) : grows (get f).
Proof. intros s. exists []. simpl. now rewrite app_nil_r. Qed.

Lemma grows_try_except_else {A B} (body : M A) (handler : exn -> M B)
    (orelse : A -> M B) :
  grows body -> (forall e, grows (handler e)) -> (forall a, grows (orelse a)) ->
  grows (try_except_else body handler orelse).
Proof.
  intros Hb Hh Ho s. unfold try_except_else.
  destruct (Hb s) as [evs Hevs].
  destruct (body s) as [a s'|e s'|s']; simpl in Hevs.
  - destruct (Ho a s') as [evs' H']. exists (evs ++ evs').
    now rewrite H', Hevs, app_assoc.
  - destruct (Hh e s') as [evs' H']. exists (evs ++ evs').
    now rewrite H', Hevs, app_assoc.
  - now exists evs.
Qed.

Lemma grows_bind {A B} (m : M A) (k : A -> M B) :
  grows m -> (forall a, grows (k a)) -> grows (bind m k).
Proof.
  intros Hm Hk.
  exact (grows_try_except_else m (fun e => raise e) k Hm
           (fun e => grows_raise e) Hk).
Qed.

Lemma grows_try_except {A} (body : M A) (handler : exn -> M A) :
  grows body -> (forall e, grows (handler e)) -> grows (try_except body handler).
Proof.
  intros Hb Hh. apply grows_try_except_else; auto. intros a. apply grows_ret.
Qed.

Lemma grows_lift_reply {A} (r : reply A) : grows (lift_reply r).
Proof. destruct r; [apply grows_ret|apply grows_raise]. Qed.

Lemma grows_log (lvl : level) (msg : string) : grows (log lvl msg).
Proof. intros s. now exists [Log lvl msg]. Qed.

Lemma grows_sleep (n : nat) : grows (sleep n).
Proof. intros s. now exists [Sleep n]. Qed.

Lemma grows_set_staging_directory (d : option string) :
  grows (modify (set_staging_directory d)).
Proof. intros s. exists []. simpl. now rewrite app_nil_r. Qed.

Lemma grows_set_master_url (u : option string) : grows (modify (set_master_url u)).
Proof. intros s. exists []. simpl. now rewrite app_nil_r. Qed.

Lemma grows_set_dashboard (d : option string) : grows (modify (set_dashboard d)).
Proof. intros s. exists []. simpl. now rewrite app_nil_r. Qed.

Lemma grows_code_of (e : exn) : grows (code_of e).
Proof. unfold code_of. destruct (exc_code e); [apply grows_ret|apply grows_raise]. Qed.

Lemma grows_py_split (sep s : string) : grows (py_split sep s).
Proof. unfold py_split. destruct (String.eqb sep ""); [apply grows_raise|apply grows_ret]. Qed.

Lemma grows_py_index (l : list string) (i : nat) : grows (py_index l i).
Proof. unfold py_index. destruct (nth_error l i); [apply grows_ret|apply grows_raise]. Qed.

Lemma grows_py_getitem (d : list (string * string)) (key : string) :
  grows (py_getitem d key).
Proof. unfold py_getitem. destruct (lookup key d); apply grows_ret. Qed.

Lemma grows_client_create_cluster (P : Platform) (cluster : pyval) :
  grows (client_create_cluster P cluster).
Proof.
  intros s. unfold client_create_cluster.
  destruct (create_cluster_rpc P _ _ _ _); eexists; reflexivity.
Qed.

Lemma grows_client_delete_cluster (P : Platform) : grows (client_delete_cluster P).
Proof.
  intros s. unfold client_delete_cluster.
  destruct (delete_cluster_rpc P _ _ _ _); eexists; reflexivity.
Qed.

Lemma grows_client_get_cluster (P : Platform) : grows (client_get_cluster P).
Proof.
  intros s. unfold client_get_cluster.
  destruct (get_cluster_rpc P _ _ _ _); eexists; reflexivity.
Qed.

Lemma grows_fs__list (P : Platform) (dir : option string) : grows (fs__list P dir).
Proof.
  intros s. unfold fs__list. destruct (fs_list P _ _); eexists; reflexivity.
Qed.

Lemma grows_fs_readlines (P : Platform) (path : string) :
  grows (fs_readlines P path).
Proof.
  intros s. unfold fs_readlines. destruct (fs_open P _ _); eexists; reflexivity.
Qed.

Lemma grows_fs__delete (P : Platform) (paths : list string) :
  grows (fs__delete P paths).
Proof.
  intros s. unfold fs__delete. destruct (fs_delete P _ _); eexists; reflexivity.
Qed.

#[local] Hint Resolve grows_ret grows_raise grows_get grows_lift_reply grows_log
  grows_sleep grows_set_staging_directory grows_set_master_url
  grows_set_dashboard grows_code_of grows_py_split grows_py_index
  grows_py_getitem grows_client_create_cluster grows_client_delete_cluster
  grows_client_get_cluster grows_fs__list grows_fs_readlines grows_fs__delete
  : grows.

(** Splits a computation along its binds, handlers and branches. *)
Ltac grow :=
  repeat first
    [ progress intros
    | apply grows_bind
    | apply grows_try_except
    | apply grows_try_except_else
    | solve [auto with grows]
    | match goal with
      | |- grows (if ?b then _ else _) => destruct b
      | |- grows (match ?x with _ => _ end) => destruct x
      end ].

Lemma grows_re_sub (P : Platform) (pat repl s : string) : grows (re_sub P pat repl s).
Proof. unfold re_sub. grow. Qed.

Lemma grows_get_cluster_details (P : Platform) : grows (get_cluster_details P).
Proof. unfold get_cluster_details. grow. Qed.

#[local] Hint Resolve grows_re_sub grows_get_cluster_details : grows.

Lemma grows_wait_for_cluster_to_provision (P : Platform) (fuel : nat) :
  grows (wait_for_cluster_to_provision P fuel).
Proof.
  induction fuel as [|fuel IH]; cbn [wait_for_cluster_to_provision].
  - intros s. exists []. simpl. now rewrite app_nil_r.
  - grow.
Qed.

Lemma grows_first_staging_match (name : string) (files : list string) :
  grows (first_staging_match name files).
Proof. induction files as [|path files IH]; cbn [first_staging_match]; grow. Qed.

#[local] Hint Resolve grows_wait_for_cluster_to_provision
  grows_first_staging_match : grows.

Lemma grows_get_staging_location (P : Platform) (fuel : nat) :
  grows (get_staging_location P fuel).
Proof. unfold get_staging_location. grow. Qed.

Lemma grows_parse_master_url_and_dashboard (P : Platform) (line : string) :
  grows (parse_master_url_and_dashboard P line).
Proof. unfold parse_master_url_and_dashboard. grow. Qed.

#[local] Hint Resolve grows_get_staging_location
  grows_parse_master_url_and_dashboard : grows.

Lemma grows_scan_lines (P : Platform) (lines : list (reply string)) :
  grows (scan_lines P lines).
Proof. induction lines as [|line lines IH]; cbn [scan_lines]; grow. Qed.

#[local] Hint Resolve grows_scan_lines : grows.

Lemma grows_scan_logs (P : Platform) (logs : list string) :
  grows (scan_logs P logs).
Proof. induction logs as [|path logs IH]; cbn [scan_logs]; grow. Qed.

#[local] Hint Resolve grows_scan_logs : grows.

Lemma grows_get_master_url_and_dashboard (P : Platform) :
  grows (get_master_url_and_dashboard P).
Proof. unfold get_master_url_and_dashboard. grow. Qed.

#[local] Hint Resolve grows_get_master_url_and_dashboard : grows.

Lemma grows_create_cluster (P : Platform) (fuel : nat) (cluster : pyval) :
  grows (create_cluster P fuel cluster).
Proof. unfold create_cluster. grow. Qed.

Lemma grows_cleanup (P : Platform) : grows (cleanup P).
Proof. unfold cleanup, cleanup_staging_files. grow. Qed.

(* ================================================================== *)
(** ** create_cluster when no startup log announces the web interface *)
(* ================================================================== *)

Lemma split_go_nonempty (sep : string) (skip : nat) (s : string) :
  Text.split_go sep skip s <> [].
Proof.
  revert skip. induction s as [|c s IH]; intros skip; cbn [Text.split_go].
  - discriminate.
  - destruct skip; [|apply IH].
    destruct (prefix sep (String c s)); [discriminate|].
    destruct (Text.split_go sep 0 s); discriminate.
Qed.

Lemma first_staging_match_returns (name : string) (files : list string)
    (s : State) :
  name <> "" ->
  first_staging_match name files s = Returned (staging_location name files) s.
Proof.
  intros Hname. unfold staging_location.
  induction files as [|path files IH]; [reflexivity|].
  cbn [first_staging_match find].
  destruct (Text.contains name path); [|exact IH].
  unfold bind, py_split. apply String.eqb_neq in Hname. rewrite Hname.
  unfold ret, py_index.
  pose proof (split_go_nonempty name 0 path) as Hne.
  destruct (Text.split_go name 0 path); [congruence|reflexivity].
Qed.

(** [get_staging_location] once the cluster leaves CREATING after [k] polls. *)
Lemma get_staging_location_returns :
  forall (P : Platform) (k : nat) (s : State) (last details : Cluster)
         (files : list string),
    let md := cluster_metadata s in
    let gcs_path :=
      "gs://" +++ config_bucket details +++ "/google-cloud-dataproc-metainfo/" in
    (forall i, i < k ->
       exists d,
         get_cluster_rpc P (trace s ++ polls md i) (project_id md) (region md)
           (cluster_name md) = Ok d
         /\ status_state_name d = "CREATING") ->
    get_cluster_rpc P (trace s ++ polls md k) (project_id md) (region md)
      (cluster_name md) = Ok last ->
    status_state_name last <> "CREATING" ->
    get_cluster_rpc P (trace s ++ polls md k ++ [get_event md]) (project_id md)
      (region md) (cluster_name md) = Ok details ->
    fs_list P (trace s ++ polls md k ++ [get_event md; get_event md])
      (Some gcs_path) = Ok files ->
    cluster_name md <> "" ->
    forall fuel, k < fuel ->
      get_staging_location P fuel s
      = Returned (staging_location (cluster_name md) files)
          (with_trace s
             (trace s ++ polls md k
                ++ [get_event md; get_event md; FsList (Some gcs_path)])).
Proof.
  intros P k s last details files md gcs_path Hcreating Hlast Hstate Hdetails
    Hlist Hname fuel Hfuel.
  unfold get_staging_location, try_except, try_except_else. unfold bind at 1.
  rewrite (polling_returns P k s last Hcreating Hlast Hstate fuel Hfuel).
  unfold bind at 1. rewrite get_cluster_details_ok with (d := details);
    [|exact Hdetails].
  unfold bind at 1, fs__list.
  cbn [record_event with_trace trace cluster_metadata _staging_directory].
  fold md. replace ((trace s ++ polls md k ++ [get_event md]) ++ [get_event md])
    with (trace s ++ polls md k ++ [get_event md; get_event md])
    by (now rewrite <- !app_assoc).
  fold gcs_path. rewrite Hlist.
  unfold bind, get. cbn [cluster_metadata].
  rewrite first_staging_match_returns by exact Hname.
  unfold ret, with_trace, record_event.
  cbn [trace cluster_metadata _staging_directory].
  fold md. do 2 f_equal. now rewrite <- !app_assoc.
Qed.

(** A [create_cluster] that does not short-circuit starts with the create
    RPC. *)
Lemma create_cluster_starts_with_rpc (P : Platform) (fuel : nat)
    (cluster : pyval) (s : State) :
  truthy (master_url (cluster_metadata s)) = false ->
  exists evs,
    trace (final (create_cluster P fuel cluster s))
    = trace s
        ++ CreateClusterRpc (project_id (cluster_metadata s))
             (region (cluster_metadata s)) cluster :: evs.
Proof.
  intros Hurl. unfold create_cluster. unfold bind at 1, get at 1.
  rewrite Hurl. cbv beta iota.
  unfold try_except_else, client_create_cluster. cbv zeta.
  destruct (create_cluster_rpc P _ _ _ _);
    match goal with
    | |- context [final (?m (record_event ?ev s))] =>
        let G := fresh "G" in
        assert (G : grows m) by grow;
        destruct (G (record_event ev s)) as [evs Hevs];
        exists evs; rewrite Hevs; simpl; now rewrite <- app_assoc
    end.
Qed.

(** C9. Let the create RPC succeed, the cluster leave CREATING after [k]
    polls, the staging location be resolved (to [dir], possibly [None]), the
    listing of [dir] succeed, and every startup log open on lines none of
    which contains "Found Web Interface".  Then [create_cluster] returns,
    having assigned [None] to [master_url] and to [dashboard]; and a further
    [create_cluster] on the resulting manager starts with the create RPC. *)
Theorem create_cluster_without_marker_is_not_idempotent :
  forall (P : Platform) (cluster : pyval) (k : nat) (s : State)
         (last details : Cluster) (metafiles files : list string)
         (contents : list (list (reply string))),
    let md := cluster_metadata s in
    let create := CreateClusterRpc (project_id md) (region md) cluster in
    let t0 :=
      trace s ++ [create;
                  Log INFO ("Cluster created successfully: " +++ cluster_name md)] in
    let gcs_path :=
      "gs://" +++ config_bucket details +++ "/google-cloud-dataproc-metainfo/" in
    let t1 :=
      t0 ++ polls md k ++ [get_event md; get_event md; FsList (Some gcs_path)] in
    let dir := staging_location (cluster_name md) metafiles in
    let startup_logs := filter is_startup_log files in
    truthy (master_url md) = false ->
    create_cluster_rpc P (trace s) (project_id md) (region md) cluster = None ->
    (forall i, i < k ->
       exists d,
         get_cluster_rpc P (t0 ++ polls md i) (project_id md) (region md)
           (cluster_name md) = Ok d
         /\ status_state_name d = "CREATING") ->
    get_cluster_rpc P (t0 ++ polls md k) (project_id md) (region md)
      (cluster_name md) = Ok last ->
    status_state_name last <> "CREATING" ->
    get_cluster_rpc P (t0 ++ polls md k ++ [get_event md]) (project_id md)
      (region md) (cluster_name md) = Ok details ->
    fs_list P (t0 ++ polls md k ++ [get_event md; get_event md])
      (Some gcs_path) = Ok metafiles ->
    cluster_name md <> "" ->
    fs_list P t1 dir = Ok files ->
    serves P (t1 ++ [FsList dir]) startup_logs contents ->
    forallb (forallb silent) contents = true ->
    forall fuel, k < fuel ->
      let s' :=
        {| cluster_metadata :=
             {| project_id := project_id md;
                region := region md;
                cluster_name := cluster_name md;
                master_url := None;
                dashboard := None |};
           _staging_directory := dir;
           trace := t1 ++ FsList dir :: map FsOpen startup_logs |} in
      create_cluster P fuel cluster s = Returned tt s'
      /\ forall fuel' cluster',
           exists evs,
             new_events s' (create_cluster P fuel' cluster' s')
             = CreateClusterRpc (project_id md) (region md) cluster' :: evs.
Proof.
  intros P cluster k s last details metafiles files contents md create t0
    gcs_path t1 dir startup_logs Hurl Hcreate Hcreating Hlast Hstate Hdetails
    Hmeta Hname Hlist Hserves Hsilent fuel Hfuel s'.
  split.
  - set (created :=
           record_event
             (Log INFO ("Cluster created successfully: " +++ cluster_name md))
             (record_event create s)).
    assert (Ht0 : trace created = t0).
    { unfold created, t0. simpl. now rewrite <- app_assoc. }
    assert (E : create_cluster P fuel cluster s
                = (dir <- get_staging_location P fuel ;;
                   modify (set_staging_directory dir) ;;;
                   r <- get_master_url_and_dashboard P ;;
                   modify (set_master_url (fst r)) ;;;
                   modify (set_dashboard (snd r))) created).
    { unfold create_cluster, try_except_else, client_create_cluster.
      unfold bind at 1, get at 1. fold md. rewrite Hurl.
      cbv beta iota zeta. fold md. rewrite Hcreate. reflexivity. }
    rewrite E. unfold bind at 1.
    rewrite (get_staging_location_returns P k created last details metafiles);
      try rewrite Ht0; auto.
    fold md gcs_path dir. unfold bind at 1, modify at 1.
    unfold bind at 1, get_master_url_and_dashboard.
    unfold bind at 1, get at 1. unfold bind at 1, fs__list.
    cbn [set_staging_directory with_trace trace _staging_directory cluster_metadata].
    change (cluster_metadata created) with md. fold t1 dir.
    rewrite Hlist. cbv beta iota.
    change (filter (Text.contains DATAPROC_STAGING_LOG_NAME) files)
      with startup_logs.
    erewrite scan_logs_silent; [|exact Hserves|exact Hsilent].
    unfold bind, modify. unfold s', set_dashboard, set_master_url, with_trace,
      record_event.
    cbn [cluster_metadata _staging_directory trace fst snd project_id region
         cluster_name master_url dashboard].
    do 2 f_equal. now rewrite <- app_assoc.
  - intros fuel' cluster'.
    destruct (create_cluster_starts_with_rpc P fuel' cluster' s' eq_refl)
      as [evs Hevs].
    exists evs. apply new_events_record. exact Hevs.
Qed.

Lemma create_cluster_without_marker_is_not_idempotent_witness :
  let P := Sample.platform None None 2 Sample.yarn Sample.silent_files in
  exists s',
    create_cluster P 3 PNone Sample.fresh = Returned tt s'
    /\ master_url (cluster_metadata s') = None
    /\ dashboard (cluster_metadata s') = None
    /\ _staging_directory s' = Some Sample.staging
    /\ exists evs,
         new_events s' (create_cluster P 3 PNone s')
         = CreateClusterRpc "test-project" "us-central1" PNone :: evs.
Proof.
  intros P.
  destruct (create_cluster_without_marker_is_not_idempotent
              P PNone 2 Sample.fresh
              {| status_state_name := "RUNNING"; config_bucket := "bucket";
                 http_ports := [("YARN ResourceManager", Sample.yarn)] |}
              {| status_state_name := "RUNNING"; config_bucket := "bucket";
                 http_ports := [("YARN ResourceManager", Sample.yarn)] |}
              (map fst Sample.silent_files) (map fst Sample.silent_files)
              (map snd Sample.silent_files))
    with (fuel := 3) as [Hfirst Hsecond].
  - reflexivity.
  - reflexivity.
  - intros i Hi.
    destruct i as [|[|i]]; [eexists; split; reflexivity ..|lia].
  - reflexivity.
  - discriminate.
  - reflexivity.
  - reflexivity.
  - discriminate.
  - reflexivity.
  - repeat split.
  - reflexivity.
  - lia.
  - eexists. split; [exact Hfirst|].
    repeat split. exact (Hsecond 3 PNone).
Defined.

(* ================================================================== *)
(** ** Which methods write the attributes of the manager *)
(* ================================================================== *)

Section Preservation.

Context {B : Type} (f : State -> B) (Hblind : trace_blind f).

Lemma preserves_record (ev : event) (s : State) : f (record_event ev s) = f s.
Proof. apply Hblind. Qed.

Lemma preserves_ret {A} (a : A) : preserves f (ret a).
Proof. intros s. reflexivity. Qed.

Lemma preserves_raise {A} (e : exn) : preserves f (@raise A e).
Proof. intros s. reflexivity. Qed.

Lemma preserves_get {A} (g : State -> A) : preserves f (get g).
Proof. intros s. reflexivity. Qed.

Lemma preserves_try_except_else {A C} (body : M A) (handler : exn -> M C)
    (orelse : A -> M C) :
  preserves f body -> (forall e, preserves f (handler e)) ->
  (forall a, preserves f (orelse a)) ->
  preserves f (try_except_else body handler orelse).
Proof.
  intros Hb Hh Ho s. unfold try_except_else.
  pose proof (Hb s) as Hs.
  destruct (body s) as [a s'|e s'|s']; simpl in Hs.
  - rewrite (Ho a s'). exact Hs.
  - rewrite (Hh e s'). exact Hs.
  - exact Hs.
Qed.

Lemma preserves_bind {A C} (m : M A) (k : A -> M C) :
  preserves f m -> (forall a, preserves f (k a)) -> preserves f (bind m k).
Proof.
  intros Hm Hk.
  exact (preserves_try_except_else m (fun e => raise e) k Hm
           (fun e => preserves_raise e) Hk).
Qed.

Lemma preserves_try_except {A} (body : M A) (handler : exn -> M A) :
  preserves f body -> (forall e, preserves f (handler e)) ->
  preserves f (try_except body handler).
Proof.
  intros Hb Hh. apply preserves_try_except_else; auto.
  intros a. apply preserves_ret.
Qed.

Lemma preserves_lift_reply {A} (r : reply A) : preserves f (lift_reply r).
Proof. destruct r; [apply preserves_ret|apply preserves_raise]. Qed.

Lemma preserves_log (lvl : level) (msg : string) : preserves f (log lvl msg).
Proof. intros s. apply preserves_record. Qed.

Lemma preserves_sleep (n : nat) : preserves f (sleep n).
Proof. intros s. apply preserves_record. Qed.

Lemma preserves_code_of (e : exn) : preserves f (code_of e).
Proof.
  unfold code_of. destruct (exc_code e); [apply preserves_ret|apply preserves_raise].
Qed.

Lemma preserves_py_split (sep s : string) : preserves f (py_split sep s).
Proof.
  unfold py_split.
  destruct (String.eqb sep ""); [apply preserves_raise|apply preserves_ret].
Qed.

Lemma preserves_py_index (l : list string) (i : nat) : preserves f (py_index l i).
Proof.
  unfold py_index.
  destruct (nth_error l i); [apply preserves_ret|apply preserves_raise].
Qed.

Lemma preserves_py_getitem (d : list (string * string)) (key : string) :
  preserves f (py_getitem d key).
Proof.
  unfold py_getitem. destruct (lookup key d); apply preserves_ret.
Qed.

Lemma preserves_client_create_cluster (P : Platform) (cluster : pyval) :
  preserves f (client_create_cluster P cluster).
Proof.
  intros s. unfold client_create_cluster.
  destruct (create_cluster_rpc P _ _ _ _); apply preserves_record.
Qed.

Lemma preserves_client_delete_cluster (P : Platform) :
  preserves f (client_delete_cluster P).
Proof.
  intros s. unfold client_delete_cluster.
  destruct (delete_cluster_rpc P _ _ _ _); apply preserves_record.
Qed.

Lemma preserves_client_get_cluster (P : Platform) :
  preserves f (client_get_cluster P).
Proof.
  intros s. unfold client_get_cluster.
  destruct (get_cluster_rpc P _ _ _ _); apply preserves_record.
Qed.

Lemma preserves_fs__list (P : Platform) (dir : option string) :
  preserves f (fs__list P dir).
Proof.
  intros s. unfold fs__list. destruct (fs_list P _ _); apply preserves_record.
Qed.

Lemma preserves_fs_readlines (P : Platform) (path : string) :
  preserves f (fs_readlines P path).
Proof.
  intros s. unfold fs_readlines. destruct (fs_open P _ _); apply preserves_record.
Qed.

Lemma preserves_fs__delete (P : Platform) (paths : list string) :
  preserves f (fs__delete P paths).
Proof.
  intros s. unfold fs__delete. destruct (fs_delete P _ _); apply preserves_record.
Qed.

Create HintDb keeps.

#[local] Hint Resolve preserves_ret preserves_raise preserves_get
  preserves_lift_reply preserves_log preserves_sleep preserves_code_of
  preserves_py_split preserves_py_index preserves_py_getitem
  preserves_client_create_cluster preserves_client_delete_cluster
  preserves_client_get_cluster preserves_fs__list preserves_fs_readlines
  preserves_fs__delete : keeps.

Ltac keep :=
  repeat first
    [ progress intros
    | apply preserves_bind
    | apply preserves_try_except
    | apply preserves_try_except_else
    | solve [auto with keeps]
    | match goal with
      | |- preserves _ (if ?b then _ else _) => destruct b
      | |- preserves _ (match ?x with _ => _ end) => destruct x
      end ].

Lemma preserves_re_sub (P : Platform) (pat repl s : string) :
  preserves f (re_sub P pat repl s).
Proof. unfold re_sub. keep. Qed.

Lemma preserves_get_cluster_details (P : Platform) :
  preserves f (get_cluster_details P).
Proof. unfold get_cluster_details. keep. Qed.

#[local] Hint Resolve preserves_re_sub preserves_get_cluster_details : keeps.

Lemma preserves_wait_for_cluster_to_provision (P : Platform) (fuel : nat) :
  preserves f (wait_for_cluster_to_provision P fuel).
Proof.
  induction fuel as [|fuel IH]; cbn [wait_for_cluster_to_provision].
  - intros s. reflexivity.
  - keep.
Qed.

Lemma preserves_first_staging_match (name : string) (files : list string) :
  preserves f (first_staging_match name files).
Proof. induction files as [|path files IH]; cbn [first_staging_match]; keep. Qed.

#[local] Hint Resolve preserves_wait_for_cluster_to_provision
  preserves_first_staging_match : keeps.

Lemma preserves_get_staging_location (P : Platform) (fuel : nat) :
  preserves f (get_staging_location P fuel).
Proof. unfold get_staging_location. keep. Qed.

Lemma preserves_parse_master_url_and_dashboard (P : Platform) (line : string) :
  preserves f (parse_master_url_and_dashboard P line).
Proof. unfold parse_master_url_and_dashboard. keep. Qed.

#[local] Hint Resolve preserves_get_staging_location
  preserves_parse_master_url_and_dashboard : keeps.

Lemma preserves_scan_lines (P : Platform) (lines : list (reply string)) :
  preserves f (scan_lines P lines).
Proof. induction lines as [|line lines IH]; cbn [scan_lines]; keep. Qed.

#[local] Hint Resolve preserves_scan_lines : keeps.

Lemma preserves_scan_logs (P : Platform) (logs : list string) :
  preserves f (scan_logs P logs).
Proof. induction logs as [|path logs IH]; cbn [scan_logs]; keep. Qed.

#[local] Hint Resolve preserves_scan_logs : keeps.

Lemma preserves_get_master_url_and_dashboard (P : Platform) :
  preserves f (get_master_url_and_dashboard P).
Proof. unfold get_master_url_and_dashboard. keep. Qed.

Lemma preserves_cleanup (P : Platform) : preserves f (cleanup P).
Proof. unfold cleanup, cleanup_staging_files. keep. Qed.

Lemma preserves_modify (g : State -> State) :
  (forall s, f (g s) = f s) -> preserves f (modify g).
Proof. intros H s. apply H. Qed.

(** [create_cluster] keeps every observation that its three assignments
    keep. *)
Lemma preserves_create_cluster (P : Platform) (fuel : nat) (cluster : pyval) :
  (forall d s, f (set_staging_directory d s) = f s) ->
  (forall u s, f (set_master_url u s) = f s) ->
  (forall d s, f (set_dashboard d s) = f s) ->
  preserves f (create_cluster P fuel cluster).
Proof.
  intros H1 H2 H3. unfold create_cluster.
  keep; apply preserves_modify; auto.
Qed.

Lemma unchanged_of_preserves {A} (m : M A) :
  preserves f m -> unchanged_unless_returned f m.
Proof. intros H s. pose proof (H s) as Hs. destruct (m s); auto. Qed.

Lemma unchanged_try_except_else {A C} (body : M A) (handler : exn -> M C)
    (orelse : A -> M C) :
  preserves f body ->
  (forall e, unchanged_unless_returned f (handler e)) ->
  (forall a, unchanged_unless_returned f (orelse a)) ->
  unchanged_unless_returned f (try_except_else body handler orelse).
Proof.
  intros Hb Hh Ho s. unfold try_except_else.
  pose proof (Hb s) as Hs.
  destruct (body s) as [a s'|e s'|s']; simpl in Hs.
  - pose proof (Ho a s') as H. destruct (orelse a s'); auto; congruence.
  - pose proof (Hh e s') as H. destruct (handler e s'); auto; congruence.
  - exact Hs.
Qed.

Lemma unchanged_bind {A C} (m : M A) (k : A -> M C) :
  preserves f m -> (forall a, unchanged_unless_returned f (k a)) ->
  unchanged_unless_returned f (bind m k).
Proof.
  intros Hm Hk.
  apply (unchanged_try_except_else m (fun e => raise e) k Hm); auto.
  intros e. apply unchanged_of_preserves, preserves_raise.
Qed.

(** [create_cluster] assigns only after everything that can fail. *)
Lemma unchanged_create_cluster (P : Platform) (fuel : nat) (cluster : pyval) :
  (forall d s, f (set_staging_directory d s) = f s) ->
  unchanged_unless_returned f (create_cluster P fuel cluster).
Proof.
  intros Hdir. unfold create_cluster.
  apply unchanged_bind; [keep|]. intros url.
  destruct (truthy url); [apply unchanged_of_preserves; keep|].
  apply unchanged_try_except_else; [keep| |].
  - intros e. apply unchanged_of_preserves. keep.
  - intros _. apply unchanged_bind; [keep|]. intros name.
    apply unchanged_bind; [keep|]. intros _.
    apply unchanged_bind; [keep|]. intros dir.
    apply unchanged_bind; [apply preserves_modify, Hdir|]. intros _.
    apply unchanged_bind; [apply preserves_get_master_url_and_dashboard|].
    intros r s. exact I.
Qed.

End Preservation.

Lemma attributes_trace_blind : trace_blind attributes.
Proof. intros s t. reflexivity. Qed.

Lemma identity_trace_blind : trace_blind identity.
Proof. intros s t. reflexivity. Qed.

Lemma cluster_metadata_trace_blind : trace_blind cluster_metadata.
Proof. intros s t. reflexivity. Qed.

(** X1. Apart from [create_cluster], no method assigns an attribute of the
    manager: however [get_cluster_details], [wait_for_cluster_to_provision],
    [get_staging_location], [parse_master_url_and_dashboard],
    [get_master_url_and_dashboard] and [cleanup] end, [cluster_metadata] and
    [_staging_directory] are what they were. *)
Theorem only_create_cluster_writes_attributes :
  forall (P : Platform) (fuel : nat) (line : string),
    preserves attributes (get_cluster_details P)
    /\ preserves attributes (wait_for_cluster_to_provision P fuel)
    /\ preserves attributes (get_staging_location P fuel)
    /\ preserves attributes (parse_master_url_and_dashboard P line)
    /\ preserves attributes (get_master_url_and_dashboard P)
    /\ preserves attributes (cleanup P).
Proof.
  intros P fuel line. pose proof attributes_trace_blind as Hb.
  repeat split.
  - now apply preserves_get_cluster_details.
  - now apply preserves_wait_for_cluster_to_provision.
  - now apply preserves_get_staging_location.
  - now apply preserves_parse_master_url_and_dashboard.
  - now apply preserves_get_master_url_and_dashboard.
  - now apply preserves_cleanup.
Qed.

(** X2. [create_cluster] never changes the identity of the cluster
    ([project_id], [region], [cluster_name]), and it assigns [master_url] and
    [dashboard] last: whenever the call does not return (it raises, or is
    still polling), [cluster_metadata] is what it was. *)
Theorem create_cluster_writes_metadata_only_on_return :
  forall (P : Platform) (fuel : nat) (cluster : pyval),
    preserves identity (create_cluster P fuel cluster)
    /\ unchanged_unless_returned cluster_metadata (create_cluster P fuel cluster).
Proof.
  intros P fuel cluster. split.
  - apply preserves_create_cluster; [exact identity_trace_blind|..];
      intros; reflexivity.
  - apply unchanged_create_cluster; [exact cluster_metadata_trace_blind|].
    intros; reflexivity.
Qed.

(** X3. [cleanup] does not reset the manager: once [master_url] is set,
    [create_cluster] after a [cleanup] (however that one ended) still returns
    at once and does nothing, so the manager cannot bring its cluster back. *)
Theorem create_cluster_after_cleanup_does_nothing :
  forall (P : Platform) (fuel : nat) (cluster : pyval) (s : State),
    truthy (master_url (cluster_metadata s)) = true ->
    let cleaned := final (cleanup P s) in
    cluster_metadata cleaned = cluster_metadata s
    /\ create_cluster P fuel cluster cleaned = Returned tt cleaned.
Proof.
  intros P fuel cluster s Hurl cleaned.
  assert (Hmd : cluster_metadata cleaned = cluster_metadata s).
  { exact (preserves_cleanup cluster_metadata cluster_metadata_trace_blind P s). }
  split; [exact Hmd|].
  unfold create_cluster. run. rewrite Hmd, Hurl. reflexivity.
Qed.

Lemma create_cluster_after_cleanup_does_nothing_witness :
  let P := Sample.platform None None 0 Sample.yarn Sample.silent_files in
  let cleaned :=
    final (cleanup P (set_staging_directory (Some Sample.staging) Sample.resolved)) in
  count is_delete_rpc (trace cleaned) = 1
  /\ count is_fs_delete (trace cleaned) = 1
  /\ create_cluster P 3 PNone cleaned = Returned tt cleaned.
Proof.
  intros P cleaned. split; [reflexivity|]. split; [reflexivity|].
  apply (create_cluster_after_cleanup_does_nothing P 3 PNone
           (set_staging_directory (Some Sample.staging) Sample.resolved)).
  reflexivity.
Defined.

(* ================================================================== *)
(** ** get_cluster_details and cleanup: error triage *)
(* ================================================================== *)

(** What [get_cluster_details] does when the RPC raises. *)
Lemma get_cluster_details_err (P : Platform) (s : State) (e : exn) :
  let md := cluster_metadata s in
  get_cluster_rpc P (trace s) (project_id md) (region md) (cluster_name md)
  = Err e ->
  get_cluster_details P s
  = match exc_code e with
    | None =>
        Raised (AttributeError "code") (with_trace s (trace s ++ [get_event md]))
    | Some c =>
        if (c =? 403)%Z then
          Raised
            (ValueError ("You cannot view clusters in project: " +++ project_id md))
            (with_trace s
               (trace s ++
                [get_event md;
                 Log ERROR ("Due to insufficient project permissions, " +++
                            "unable to retrieve information for cluster: " +++
                            cluster_name md)]))
        else if (c =? 404)%Z then
          Raised (ValueError ("Cluster was not found: " +++ cluster_name md))
            (with_trace s
               (trace s ++
                [get_event md;
                 Log ERROR ("Cluster does not exist: " +++ cluster_name md)]))
        else
          Raised e
            (with_trace s
               (trace s ++
                [get_event md;
                 Log ERROR ("Failed to get information for cluster: " +++
                            cluster_name md)]))
    end.
Proof.
  intros md H. unfold get_cluster_details. run. fold md. rewrite H.
  cbn [cluster_metadata record_event]. fold md.
  destruct (exc_code e) as [c|]; [|reflexivity].
  destruct (c =? 403)%Z; [|destruct (c =? 404)%Z];
    unfold with_trace, record_event;
    cbn [trace cluster_metadata _staging_directory];
    now rewrite <- app_assoc.
Qed.

(** X4. When the get-cluster RPC raises, [get_cluster_details] raises as
    well, after that one RPC: for code 403 a [ValueError] "You cannot view
    clusters in project: <project id>", for code 404 a [ValueError] "Cluster
    was not found: <cluster name>", for any other code the exception itself,
    each after one ERROR record; and [AttributeError] with no record when the
    exception has no code. *)
Theorem get_cluster_details_error_triage :
  forall (P : Platform) (s : State) (e : exn),
    let md := cluster_metadata s in
    get_cluster_rpc P (trace s) (project_id md) (region md) (cluster_name md)
    = Err e ->
    get_cluster_details P s
    = match exc_code e with
      | None =>
          Raised (AttributeError "code")
            (with_trace s (trace s ++ [get_event md]))
      | Some c =>
          if (c =? 403)%Z then
            Raised
              (ValueError
                 ("You cannot view clusters in project: " +++ project_id md))
              (with_trace s
                 (trace s ++
                  [get_event md;
                   Log ERROR ("Due to insufficient project permissions, " +++
                              "unable to retrieve information for cluster: " +++
                              cluster_name md)]))
          else if (c =? 404)%Z then
            Raised (ValueError ("Cluster was not found: " +++ cluster_name md))
              (with_trace s
                 (trace s ++
                  [get_event md;
                   Log ERROR ("Cluster does not exist: " +++ cluster_name md)]))
          else
            Raised e
              (with_trace s
                 (trace s ++
                  [get_event md;
                   Log ERROR ("Failed to get information for cluster: " +++
                              cluster_name md)]))
      end.
Proof. intros P s e md H. exact (get_cluster_details_err P s e H). Qed.

Lemma get_cluster_details_error_triage_witness :
  get_cluster_details (SampleMore.failing_get (ApiError (Some 404%Z) "gone"))
    Sample.fresh
  = Raised (ValueError "Cluster was not found: test-cluster")
      (with_trace Sample.fresh
         [ GetClusterRpc "test-project" "us-central1" "test-cluster";
           Log ERROR "Cluster does not exist: test-cluster" ]).
Proof.
  apply (get_cluster_details_error_triage
           (SampleMore.failing_get (ApiError (Some 404%Z) "gone")) Sample.fresh
           (ApiError (Some 404%Z) "gone")).
  reflexivity.
Defined.

(** What the handler of [cleanup] makes of an exception raised at [s]. *)
Lemma cleanup_handler (s : State) (e : exn) :
  let md := cluster_metadata s in
  (name <- get (fun s => cluster_name (cluster_metadata s)) ;;
   project <- get (fun s => project_id (cluster_metadata s)) ;;
   code <- code_of e ;;
   if (code =? 403)%Z then
     log ERROR ("Due to insufficient project permissions, " +++
                "unable to clean up the default cluster: " +++ name) ;;;
     raise (ValueError ("You cannot delete a cluster in project: " +++ project))
   else if (code =? 404)%Z then
     log ERROR ("Cluster does not exist: " +++ name) ;;;
     raise (ValueError ("Cluster was not found: " +++ name))
   else
     log ERROR ("Failed to delete cluster: " +++ name) ;;;
     @raise unit e) s
  = match exc_code e with
    | None => Raised (AttributeError "code") s
    | Some c =>
        if (c =? 403)%Z then
          Raised
            (ValueError ("You cannot delete a cluster in project: " +++
                         project_id md))
            (with_trace s
               (trace s ++
                [Log ERROR ("Due to insufficient project permissions, " +++
                            "unable to clean up the default cluster: " +++
                            cluster_name md)]))
        else if (c =? 404)%Z then
          Raised (ValueError ("Cluster was not found: " +++ cluster_name md))
            (with_trace s
               (trace s ++
                [Log ERROR ("Cluster does not exist: " +++ cluster_name md)]))
        else
          Raised e
            (with_trace s
               (trace s ++
                [Log ERROR ("Failed to delete cluster: " +++ cluster_name md)]))
    end.
Proof.
  intros md. run. fold md.
  destruct (exc_code e) as [c|]; [|reflexivity].
  destruct (c =? 403)%Z; [|destruct (c =? 404)%Z]; reflexivity.
Qed.

(** X5. When the delete-cluster RPC raises, [cleanup] raises after that one
    RPC: for code 403 a [ValueError] "You cannot delete a cluster in project:
    <project id>", for code 404 a [ValueError] "Cluster was not found:
    <cluster name>", for any other code the exception itself, each after one
    ERROR record; and [AttributeError] with no record when the exception has
    no code. *)
Theorem cleanup_error_triage :
  forall (P : Platform) (s : State) (e : exn),
    let md := cluster_metadata s in
    delete_cluster_rpc P (trace s) (project_id md) (region md) (cluster_name md)
    = Some e ->
    cleanup P s
    = match exc_code e with
      | None =>
          Raised (AttributeError "code")
            (with_trace s (trace s ++ [delete_event md]))
      | Some c =>
          if (c =? 403)%Z then
            Raised
              (ValueError ("You cannot delete a cluster in project: " +++
                           project_id md))
              (with_trace s
                 (trace s ++
                  [delete_event md;
                   Log ERROR ("Due to insufficient project permissions, " +++
                              "unable to clean up the default cluster: " +++
                              cluster_name md)]))
          else if (c =? 404)%Z then
            Raised (ValueError ("Cluster was not found: " +++ cluster_name md))
              (with_trace s
                 (trace s ++
                  [delete_event md;
                   Log ERROR ("Cluster does not exist: " +++ cluster_name md)]))
          else
            Raised e
              (with_trace s
                 (trace s ++
                  [delete_event md;
                   Log ERROR ("Failed to delete cluster: " +++ cluster_name md)]))
      end.
Proof.
  intros P s e md H.
  unfold cleanup, try_except, try_except_else.
  unfold bind at 1, client_delete_cluster. cbv zeta. fold md. rewrite H.
  rewrite cleanup_handler.
  cbn [cluster_metadata record_event]. fold md.
  destruct (exc_code e) as [c|]; [|reflexivity].
  destruct (c =? 403)%Z; [|destruct (c =? 404)%Z];
    unfold with_trace, record_event;
    cbn [trace cluster_metadata _staging_directory];
    now rewrite <- app_assoc.
Qed.

Lemma cleanup_error_triage_witness :
  cleanup
    (Sample.platform None (Some (ApiError (Some 403%Z) "denied")) 0 Sample.yarn
       Sample.silent_files)
    (set_staging_directory (Some Sample.staging) Sample.resolved)
  = Raised (ValueError "You cannot delete a cluster in project: test-project")
      (with_trace (set_staging_directory (Some Sample.staging) Sample.resolved)
         [ DeleteClusterRpc "test-project" "us-central1" "test-cluster";
           Log ERROR
             "Due to insufficient project permissions, unable to clean up the default cluster: test-cluster" ]).
Proof.
  apply (cleanup_error_triage
           (Sample.platform None (Some (ApiError (Some 403%Z) "denied")) 0
              Sample.yarn Sample.silent_files)
           (set_staging_directory (Some Sample.staging) Sample.resolved)
           (ApiError (Some 403%Z) "denied")).
  reflexivity.
Defined.

(** What [cleanup] does once its body has raised [e] at [s1]. *)
Lemma cleanup_body_raised (P : Platform) (s s1 : State) (e : exn) :
  (client_delete_cluster P ;;; cleanup_staging_files P) s = Raised e s1 ->
  let md := cluster_metadata s1 in
  cleanup P s
  = match exc_code e with
    | None => Raised (AttributeError "code") s1
    | Some c =>
        if (c =? 403)%Z then
          Raised
            (ValueError ("You cannot delete a cluster in project: " +++
                         project_id md))
            (with_trace s1
               (trace s1 ++
                [Log ERROR ("Due to insufficient project permissions, " +++
                            "unable to clean up the default cluster: " +++
                            cluster_name md)]))
        else if (c =? 404)%Z then
          Raised (ValueError ("Cluster was not found: " +++ cluster_name md))
            (with_trace s1
               (trace s1 ++
                [Log ERROR ("Cluster does not exist: " +++ cluster_name md)]))
        else
          Raised e
            (with_trace s1
               (trace s1 ++
                [Log ERROR ("Failed to delete cluster: " +++ cluster_name md)]))
    end.
Proof.
  intros H md. unfold cleanup, try_except, try_except_else.
  rewrite H. apply cleanup_handler.
Qed.

(** The body of [cleanup] when the delete RPC succeeds and a staging
    directory is set: the listing, then the deletion of what was listed. *)
Lemma cleanup_body_staging (P : Platform) (s : State) :
  let md := cluster_metadata s in
  let dir := _staging_directory s in
  truthy dir = true ->
  delete_cluster_rpc P (trace s) (project_id md) (region md) (cluster_name md)
  = None ->
  (client_delete_cluster P ;;; cleanup_staging_files P) s
  = match fs_list P (trace s ++ [delete_event md]) dir with
    | Err e => Raised e (with_trace s (trace s ++ [delete_event md; FsList dir]))
    | Ok files =>
        match fs_delete P (trace s ++ [delete_event md; FsList dir]) files with
        | Some e =>
            Raised e
              (with_trace s
                 (trace s ++ [delete_event md; FsList dir; FsDelete files]))
        | None =>
            Returned tt
              (with_trace s
                 (trace s ++ [delete_event md; FsList dir; FsDelete files]))
        end
    end.
Proof.
  intros md dir Hdir Hrpc. unfold cleanup_staging_files. run.
  unfold delete_event. fold md. rewrite Hrpc.
  cbn [cluster_metadata record_event _staging_directory trace]. fold md dir.
  rewrite Hdir.
  destruct (fs_list P _ dir) as [files|e].
  - cbn [trace record_event cluster_metadata _staging_directory].
    rewrite <- app_assoc. cbn [app].
    destruct (fs_delete P _ files);
      unfold with_trace, record_event;
      cbn [trace cluster_metadata _staging_directory];
      rewrite <- ?app_assoc; reflexivity.
  - unfold with_trace, record_event.
    cbn [trace cluster_metadata _staging_directory].
    rewrite <- ?app_assoc. reflexivity.
Qed.

(** X6. With a staging directory resolved (not [None], not empty), a delete
    RPC that succeeds, a listing that answers [files] and a deletion that
    succeeds, [cleanup] returns after exactly three calls: the delete RPC,
    one listing of the staging directory, and one deletion of all of [files]
    (also when [files] is empty). *)
Theorem cleanup_deletes_listed_staging_files :
  forall (P : Platform) (s : State) (files : list string),
    let md := cluster_metadata s in
    let dir := _staging_directory s in
    truthy dir = true ->
    delete_cluster_rpc P (trace s) (project_id md) (region md) (cluster_name md)
    = None ->
    fs_list P (trace s ++ [delete_event md]) dir = Ok files ->
    fs_delete P (trace s ++ [delete_event md; FsList dir]) files = None ->
    cleanup P s
    = Returned tt
        (with_trace s (trace s ++ [delete_event md; FsList dir; FsDelete files])).
Proof.
  intros P s files md dir Hdir Hrpc Hlist Hdelete.
  unfold cleanup, try_except, try_except_else.
  rewrite (cleanup_body_staging P s Hdir Hrpc). fold md dir.
  rewrite Hlist, Hdelete. reflexivity.
Qed.

Lemma cleanup_deletes_listed_staging_files_witness :
  cleanup (Sample.platform None None 0 Sample.yarn Sample.silent_files)
    (set_staging_directory (Some Sample.staging) Sample.resolved)
  = Returned tt
      (with_trace (set_staging_directory (Some Sample.staging) Sample.resolved)
         [ DeleteClusterRpc "test-project" "us-central1" "test-cluster";
           FsList (Some Sample.staging);
           FsDelete (map fst Sample.silent_files) ]).
Proof.
  apply (cleanup_deletes_listed_staging_files
           (Sample.platform None None 0 Sample.yarn Sample.silent_files)
           (set_staging_directory (Some Sample.staging) Sample.resolved)
           (map fst Sample.silent_files)); reflexivity.
Defined.

(** X7. The handler of [cleanup] also catches what the removal of the staging
    files raises.  When the delete RPC has succeeded and the listing or the
    deletion of the staging files raises [e], the caller gets the translation
    meant for the delete RPC: [AttributeError] when [e] has no code, for code
    403 "You cannot delete a cluster in project: <project id>", for code 404
    "Cluster was not found: <cluster name>" (although the cluster was deleted
    by the one delete RPC of the run), otherwise [e] itself. *)
Theorem cleanup_staging_failure_reported_as_cluster_failure :
  forall (P : Platform) (s : State) (e : exn),
    let md := cluster_metadata s in
    let dir := _staging_directory s in
    truthy dir = true ->
    delete_cluster_rpc P (trace s) (project_id md) (region md) (cluster_name md)
    = None ->
    (fs_list P (trace s ++ [delete_event md]) dir = Err e
     \/ exists files,
          fs_list P (trace s ++ [delete_event md]) dir = Ok files
          /\ fs_delete P (trace s ++ [delete_event md; FsList dir]) files
             = Some e) ->
    result (cleanup P s)
    = Some (Err match exc_code e with
                | None => AttributeError "code"
                | Some c =>
                    if (c =? 403)%Z then
                      ValueError ("You cannot delete a cluster in project: " +++
                                  project_id md)
                    else if (c =? 404)%Z then
                      ValueError ("Cluster was not found: " +++ cluster_name md)
                    else e
                end)
    /\ count is_delete_rpc (new_events s (cleanup P s)) = 1.
Proof.
  intros P s e md dir Hdir Hrpc Hfs.
  assert (Hbody : exists s1 evs,
             (client_delete_cluster P ;;; cleanup_staging_files P) s
             = Raised e s1
             /\ cluster_metadata s1 = md
             /\ trace s1 = trace s ++ delete_event md :: evs
             /\ count is_delete_rpc evs = 0).
  { rewrite (cleanup_body_staging P s Hdir Hrpc). fold md dir.
    destruct Hfs as [Hlist|(files & Hlist & Hdelete)].
    - rewrite Hlist. eexists; exists [FsList dir]. repeat split.
    - rewrite Hlist, Hdelete. eexists; exists [FsList dir; FsDelete files].
      repeat split. }
  destruct Hbody as (s1 & evs & Hbody & Hmd & Ht & Hcount).
  rewrite (cleanup_body_raised P s s1 e Hbody), Hmd. fold md.
  assert (Hn : forall (x : exn) (msg : string),
             count is_delete_rpc
               (new_events s
                  (@Raised unit x (with_trace s1 (trace s1 ++ [Log ERROR msg]))))
             = 1).
  { intros x msg. erewrite new_events_record.
    2:{ cbn [final with_trace trace]. rewrite Ht, <- app_assoc. reflexivity. }
    unfold count in *. cbn [filter is_delete_rpc delete_event length app].
    rewrite filter_app, length_app, Hcount. reflexivity. }
  destruct (exc_code e) as [c|].
  - destruct (c =? 403)%Z; [|destruct (c =? 404)%Z];
      (split; [reflexivity|apply Hn]).
  - split; [reflexivity|].
    erewrite new_events_record by (cbn [final]; exact Ht).
    unfold count in *. cbn [filter is_delete_rpc delete_event length].
    now rewrite Hcount.
Qed.

Lemma cleanup_staging_failure_reported_as_cluster_failure_witness :
  result
    (cleanup (SampleMore.failing_delete (ApiError (Some 404%Z) "no such object"))
       (set_staging_directory (Some Sample.staging) Sample.resolved))
  = Some (Err (ValueError "Cluster was not found: test-cluster"))
  /\ count is_delete_rpc
       (new_events (set_staging_directory (Some Sample.staging) Sample.resolved)
          (cleanup
             (SampleMore.failing_delete (ApiError (Some 404%Z) "no such object"))
             (set_staging_directory (Some Sample.staging) Sample.resolved)))
     = 1.
Proof.
  apply (cleanup_staging_failure_reported_as_cluster_failure
           (SampleMore.failing_delete (ApiError (Some 404%Z) "no such object"))
           (set_staging_directory (Some Sample.staging) Sample.resolved)
           (ApiError (Some 404%Z) "no such object")).
  - reflexivity.
  - reflexivity.
  - right. exists ["gs://bucket/a"]. split; reflexivity.
Defined.

(* ================================================================== *)
(** ** wait_for_cluster_to_provision: no bound, and failing fetches *)
(* ================================================================== *)

Lemma polling_continues (P : Platform) :
  forall (fuel : nat) (s : State),
    let md := cluster_metadata s in
    (forall i, i < fuel ->
       exists d,
         get_cluster_rpc P (trace s ++ polls md i) (project_id md) (region md)
           (cluster_name md) = Ok d
         /\ status_state_name d = "CREATING") ->
    wait_for_cluster_to_provision P fuel s
    = Polling (with_trace s (trace s ++ polls md fuel)).
Proof.
  induction fuel as [|fuel IH]; intros s md Hcreating.
  - simpl. now rewrite app_nil_r, with_trace_same.
  - destruct (Hcreating 0 ltac:(lia)) as (d & Hd & Hs).
    simpl in Hd. rewrite app_nil_r in Hd.
    cbn [wait_for_cluster_to_provision]. unfold bind at 1.
    rewrite (get_cluster_details_ok P s d Hd).
    apply String.eqb_eq in Hs. rewrite Hs.
    unfold bind, sleep, modify.
    set (s2 := record_event (Sleep 15)
                 (record_event (get_event (cluster_metadata s)) s)).
    assert (Ht : forall l, trace s2 ++ l = trace s ++ get_event md :: Sleep 15 :: l).
    { intros l. unfold s2. simpl. now rewrite <- !app_assoc. }
    rewrite (IH s2).
    + rewrite Ht. reflexivity.
    + intros i Hi. rewrite Ht. apply (Hcreating (S i)). lia.
Qed.

(** X8. The polling loop has no bound of its own: as long as the fetches
    report CREATING it neither returns nor raises.  After [n] such answers
    it has made [n] fetches and slept [n] times 15, and is about to fetch
    again. *)
Theorem wait_for_cluster_to_provision_keeps_polling :
  forall (P : Platform) (n : nat) (s : State),
    let md := cluster_metadata s in
    (forall i, i < n ->
       exists d,
         get_cluster_rpc P (trace s ++ polls md i) (project_id md) (region md)
           (cluster_name md) = Ok d
         /\ status_state_name d = "CREATING") ->
    wait_for_cluster_to_provision P n s
    = Polling (with_trace s (trace s ++ polls md n))
    /\ result (wait_for_cluster_to_provision P n s) = None.
Proof.
  intros P n s md H. rewrite (polling_continues P n s H). split; reflexivity.
Qed.

Lemma wait_for_cluster_to_provision_keeps_polling_witness :
  wait_for_cluster_to_provision
    (Sample.platform None None 5 Sample.yarn []) 2 Sample.fresh
  = Polling
      (with_trace Sample.fresh
         [ GetClusterRpc "test-project" "us-central1" "test-cluster"; Sleep 15;
           GetClusterRpc "test-project" "us-central1" "test-cluster"; Sleep 15 ]).
Proof.
  apply (wait_for_cluster_to_provision_keeps_polling
           (Sample.platform None None 5 Sample.yarn []) 2 Sample.fresh).
  intros i Hi. destruct i as [|[|i]]; [eexists; split; reflexivity ..|lia].
Defined.

Lemma get_cluster_details_raises (P : Platform) (s : State) (e : exn) :
  get_cluster_rpc P (trace s) (project_id (cluster_metadata s))
    (region (cluster_metadata s)) (cluster_name (cluster_metadata s)) = Err e ->
  exists e' s', get_cluster_details P s = Raised e' s'.
Proof.
  intros H. rewrite (get_cluster_details_err P s e H).
  destruct (exc_code e) as [c|]; [|eauto].
  destruct (c =? 403)%Z; [|destruct (c =? 404)%Z]; eauto.
Qed.

Lemma polling_raises (P : Platform) :
  forall (k : nat) (s : State) (e : exn),
    let md := cluster_metadata s in
    (forall i, i < k ->
       exists d,
         get_cluster_rpc P (trace s ++ polls md i) (project_id md) (region md)
           (cluster_name md) = Ok d
         /\ status_state_name d = "CREATING") ->
    get_cluster_rpc P (trace s ++ polls md k) (project_id md) (region md)
      (cluster_name md) = Err e ->
    forall fuel, k < fuel ->
      exists e' s',
        get_cluster_details P (with_trace s (trace s ++ polls md k))
        = Raised e' s'
        /\ wait_for_cluster_to_provision P fuel s = Raised e' s'.
Proof.
  induction k as [|k IH]; intros s e md Hcreating Herr fuel Hfuel.
  - destruct fuel as [|fuel]; [lia|]. simpl in *.
    rewrite app_nil_r in *. rewrite with_trace_same.
    destruct (get_cluster_details_raises P s e Herr) as (e' & s' & E).
    exists e', s'. split; [exact E|].
    unfold bind. now rewrite E.
  - destruct fuel as [|fuel]; [lia|].
    destruct (Hcreating 0 ltac:(lia)) as (d & Hd & Hs).
    simpl in Hd. rewrite app_nil_r in Hd.
    cbn [wait_for_cluster_to_provision]. unfold bind at 1.
    rewrite (get_cluster_details_ok P s d Hd).
    apply String.eqb_eq in Hs. rewrite Hs.
    unfold bind, sleep, modify.
    set (s2 := record_event (Sleep 15)
                 (record_event (get_event (cluster_metadata s)) s)).
    assert (Ht : forall l, trace s2 ++ l = trace s ++ get_event md :: Sleep 15 :: l).
    { intros l. unfold s2. simpl. now rewrite <- !app_assoc. }
    destruct (IH s2 e) with (fuel := fuel) as (e' & s' & E1 & E2).
    + intros i Hi. rewrite Ht. apply (Hcreating (S i)). lia.
    + rewrite Ht. exact Herr.
    + lia.
    + exists e', s'. split; [|exact E2].
      rewrite <- E1. f_equal. unfold with_trace. rewrite Ht. reflexivity.
Qed.

(** X9. A fetch that fails ends the polling loop: when, after [k] answers
    CREATING, the get-cluster RPC raises, [wait_for_cluster_to_provision]
    raises what [get_cluster_details] raises at that point (the translated
    exception, after its ERROR record) and does not poll again. *)
Theorem wait_for_cluster_to_provision_propagates_failure :
  forall (P : Platform) (k : nat) (s : State) (e : exn),
    let md := cluster_metadata s in
    (forall i, i < k ->
       exists d,
         get_cluster_rpc P (trace s ++ polls md i) (project_id md) (region md)
           (cluster_name md) = Ok d
         /\ status_state_name d = "CREATING") ->
    get_cluster_rpc P (trace s ++ polls md k) (project_id md) (region md)
      (cluster_name md) = Err e ->
    forall fuel, k < fuel ->
      exists e' s',
        get_cluster_details P (with_trace s (trace s ++ polls md k))
        = Raised e' s'
        /\ wait_for_cluster_to_provision P fuel s = Raised e' s'.
Proof.
  intros P k s e md Hcreating Herr fuel Hfuel.
  exact (polling_raises P k s e Hcreating Herr fuel Hfuel).
Qed.

Lemma wait_for_cluster_to_provision_propagates_failure_witness :
  exists s',
    wait_for_cluster_to_provision
      (SampleMore.vanishing 1 (ApiError (Some 404%Z) "gone")) 7 Sample.fresh
    = Raised (ValueError "Cluster was not found: test-cluster") s'
    /\ trace s'
       = [ GetClusterRpc "test-project" "us-central1" "test-cluster"; Sleep 15;
           GetClusterRpc "test-project" "us-central1" "test-cluster";
           Log ERROR "Cluster does not exist: test-cluster" ].
Proof.
  destruct (wait_for_cluster_to_provision_propagates_failure
              (SampleMore.vanishing 1 (ApiError (Some 404%Z) "gone")) 1
              Sample.fresh (ApiError (Some 404%Z) "gone"))
    with (fuel := 7) as (e' & s' & E1 & E2).
  - intros i Hi. destruct i as [|i]; [eexists; split; reflexivity|lia].
  - reflexivity.
  - lia.
  - exists s'. rewrite E2.
    vm_compute in E1. injection E1 as <- <-. split; reflexivity.
Defined.

(* ================================================================== *)
(** ** parse_master_url_and_dashboard on any line *)
(* ================================================================== *)

Module SplitFacts.
Import Text TextFacts.

Lemma split_go_absent (sep s : string) :
  contains sep s = false -> split_go sep 0 s = [s].
Proof.
  induction s as [|c s IH]; intros H; [reflexivity|].
  cbn [split_go]. rewrite (contains_head _ _ H).
  rewrite (IH (contains_tail _ _ _ H)). reflexivity.
Qed.

Lemma split_go_skip (sep a b : string) :
  split_go sep (String.length a) (a +++ b) = split_go sep 0 b.
Proof.
  induction a as [|c a IH]; simpl; [|exact IH].
  destruct b; reflexivity.
Qed.

Lemma split_go_at_separator (sep post : string) :
  sep <> "" ->
  split_go sep 0 (sep +++ post) = "" :: split_go sep 0 post.
Proof.
  destruct sep as [|h t]; [congruence|]. intros _.
  cbn [append split_go].
  change (String h (t +++ post)) with (String h t +++ post).
  rewrite prefix_append. f_equal.
  cbn [String.length]. rewrite Nat.sub_succ, Nat.sub_0_r.
  apply split_go_skip.
Qed.

(** The text before the first separator is the first piece. *)
Lemma split_go_first (q : string) (c : ascii) (pre post : string) :
  let sep := q +++ String c "" in
  contains sep (pre +++ q) = false ->
  split_go sep 0 (pre +++ sep +++ post) = pre :: split_go sep 0 post.
Proof.
  intros sep. induction pre as [|a pre IH]; intros H.
  - cbn [append]. apply split_go_at_separator.
    unfold sep. destruct q; discriminate.
  - cbn [append split_go].
    assert (Hpre : prefix sep (String a (pre +++ sep +++ post)) = false).
    { change (String a (pre +++ sep +++ post))
        with (String a pre +++ sep +++ post).
      unfold sep at 2. rewrite append_assoc, <- (append_assoc (String a pre)).
      rewrite prefix_long.
      - exact (contains_head _ _ H).
      - unfold sep. rewrite !length_append. simpl. lia. }
    rewrite Hpre, (IH (contains_tail _ _ _ H)). reflexivity.
Qed.

Lemma has_char_append (a : ascii) (s t : string) :
  has_char a (s +++ t) = has_char a s || has_char a t.
Proof.
  induction s as [|c s IH]; simpl; [reflexivity|].
  now rewrite IH, orb_assoc.
Qed.

(** The quoted application id at the end of a line comes out bare. *)
Lemma strip_quoted (id : string) :
  has_char quote id = false ->
  has_char newline id = false ->
  strip_quotes_and_eol (String quote (id +++ String quote ("." +++ nl))) = id.
Proof.
  intros Hq Hn. cbn [strip_quotes_and_eol]. rewrite Ascii.eqb_refl.
  induction id as [|c id IH]; [reflexivity|].
  cbn [has_char] in Hq, Hn. apply orb_false_iff in Hq, Hn.
  destruct Hq as [Hqc Hq], Hn as [Hnc Hn].
  cbn [append strip_quotes_and_eol].
  rewrite Ascii.eqb_sym in Hqc. rewrite Hqc.
  destruct id as [|d id].
  - cbn [append]. change (Ascii.eqb quote newline) with false.
    rewrite andb_false_r. f_equal.
  - cbn [append]. pose proof Hn as Hn'. cbn [has_char] in Hn'.
    apply orb_false_iff in Hn'.
    destruct Hn' as [Hnd _]. rewrite Ascii.eqb_sym in Hnd. rewrite Hnd.
    rewrite andb_false_r. f_equal. apply IH; assumption.
Qed.

(** What is left of a text never holds a quote. *)
Lemma strip_no_quote (s : string) :
  has_char quote (strip_quotes_and_eol s) = false.
Proof.
  assert (H : forall n s, String.length s <= n ->
                          has_char quote (strip_quotes_and_eol s) = false).
  { induction n as [|n IH]; intros t Hlen.
    - destruct t; [reflexivity|simpl in Hlen; lia].
    - destruct t as [|c t]; [reflexivity|]. simpl in Hlen.
      cbn [strip_quotes_and_eol].
      destruct (Ascii.eqb c quote) eqn:Hc; [apply IH; lia|].
      destruct t as [|d t].
      + cbn [has_char]. rewrite Ascii.eqb_sym, Hc. reflexivity.
      + destruct (negb (Ascii.eqb c newline) && Ascii.eqb d newline).
        * apply IH. simpl in Hlen. lia.
        * cbn [has_char]. rewrite Ascii.eqb_sym, Hc. apply IH. lia. }
  exact (H (String.length s) s (le_n _)).
Qed.

End SplitFacts.

(** [parse_master_url_and_dashboard] once the descriptor is fetched and its
    YARN endpoint read. *)
Lemma parse_after_fetch (P : Platform) (line : string) (s : State)
    (details : Cluster) (endpoint : string) :
  let md := cluster_metadata s in
  get_cluster_rpc P (trace s) (project_id md) (region md) (cluster_name md)
  = Ok details ->
  lookup "YARN ResourceManager" (http_ports details) = Some endpoint ->
  parse_master_url_and_dashboard P line s
  = (rest <- py_index (Text.split_go "Found Web Interface " 0 line) 1 ;;
     let segment := Text.split_go " of application " 0 rest in
     master_url <- py_index segment 0 ;;
     raw_id <- py_index segment 1 ;;
     dashboard <- re_sub P "/yarn/"
                    ("/gateway/default/yarn/proxy/" +++
                     Text.strip_quotes_and_eol raw_id +++ "/") endpoint ;;
     ret (Some master_url, Some dashboard))
      (record_event (get_event md) s).
Proof.
  intros md Hrpc Hports.
  unfold parse_master_url_and_dashboard. unfold bind at 1.
  rewrite (get_cluster_details_ok P s details Hrpc).
  unfold bind at 1, py_getitem. rewrite Hports. unfold ret at 1.
  reflexivity.
Qed.

(** X10. On every line of the documented format, [text], then "Found Web
    Interface ", the master URL, " of application '", the application id and
    "'.\n" (where the two separators occur nowhere else, and the id has no
    quote, newline or backslash), [parse_master_url_and_dashboard] fetches
    the descriptor once and returns the master URL and, as dashboard, the
    YARN endpoint with each "/yarn/" replaced by
    "/gateway/default/yarn/proxy/<id>/". *)
Theorem parse_master_url_and_dashboard_documented_format :
  forall (P : Platform) (s : State) (details : Cluster)
         (endpoint text url id : string),
    let md := cluster_metadata s in
    get_cluster_rpc P (trace s) (project_id md) (region md) (cluster_name md)
    = Ok details ->
    lookup "YARN ResourceManager" (http_ports details) = Some endpoint ->
    Text.contains "Found Web Interface " (text +++ "Found Web Interface") = false ->
    Text.contains "Found Web Interface "
      (url +++ " of application '" +++ id +++ "'." +++ nl) = false ->
    Text.contains " of application " (url +++ " of application") = false ->
    Text.contains " of application " ("'" +++ id +++ "'." +++ nl) = false ->
    Text.has_char Text.quote id = false ->
    Text.has_char Text.newline id = false ->
    Text.has_char Text.backslash id = false ->
    parse_master_url_and_dashboard P (startup_line text url id) s
    = Returned
        (Some url,
         Some (Text.replace_all "/yarn/"
                 ("/gateway/default/yarn/proxy/" +++ id +++ "/") endpoint))
        (record_event (get_event md) s).
Proof.
  intros P s details endpoint text url id md Hrpc Hports Hm1 Hm2 Ha1 Ha2
    Hquote Hnl Hbs.
  rewrite (parse_after_fetch P _ s details endpoint Hrpc Hports). fold md.
  unfold startup_line.
  assert (E1 : Text.split_go "Found Web Interface " 0
                 (text +++ "Found Web Interface " +++ url
                  +++ " of application '" +++ id +++ "'." +++ nl)
               = [text; url +++ " of application '" +++ id +++ "'." +++ nl]).
  { rewrite <- (SplitFacts.split_go_absent _ _ Hm2).
    exact (SplitFacts.split_go_first "Found Web Interface" " "%char text
             (url +++ " of application '" +++ id +++ "'." +++ nl) Hm1). }
  assert (E2 : Text.split_go " of application " 0
                 (url +++ " of application '" +++ id +++ "'." +++ nl)
               = [url; "'" +++ id +++ "'." +++ nl]).
  { rewrite <- (SplitFacts.split_go_absent _ _ Ha2).
    exact (SplitFacts.split_go_first " of application" " "%char url
             ("'" +++ id +++ "'." +++ nl) Ha1). }
  rewrite E1.
  unfold bind at 1, py_index at 1. cbn [nth_error]. unfold ret at 1.
  cbv zeta. rewrite E2.
  unfold bind at 1, py_index at 1. cbn [nth_error]. unfold ret at 1.
  unfold bind at 1, py_index at 1. cbn [nth_error]. unfold ret at 1.
  change ("'" +++ id +++ "'." +++ nl)
    with (String Text.quote (id +++ String Text.quote ("." +++ nl))).
  rewrite (SplitFacts.strip_quoted id Hquote Hnl).
  unfold bind, re_sub.
  rewrite !SplitFacts.has_char_append, Hbs. cbn [orb Text.has_char].
  change (Text.has_char Text.backslash "/gateway/default/yarn/proxy/") with false.
  change (Ascii.eqb Text.backslash "/") with false.
  cbv iota. reflexivity.
Qed.

Lemma parse_master_url_and_dashboard_documented_format_witness :
  parse_master_url_and_dashboard
    (Sample.platform None None 0 "https://proxy.example/yarn/cluster/yarn/" [])
    (startup_line "2022-01-01 [] - " "cluster-m.internal:35525"
       "application_1646000000000_0002")
    Sample.fresh
  = Returned
      (Some "cluster-m.internal:35525",
       Some
         "https://proxy.example/gateway/default/yarn/proxy/application_1646000000000_0002/cluster/gateway/default/yarn/proxy/application_1646000000000_0002/")
      (with_trace Sample.fresh
         [GetClusterRpc "test-project" "us-central1" "test-cluster"]).
Proof.
  apply (parse_master_url_and_dashboard_documented_format
           (Sample.platform None None 0
              "https://proxy.example/yarn/cluster/yarn/" [])
           Sample.fresh
           {| status_state_name := "RUNNING"; config_bucket := "bucket";
              http_ports :=
                [("YARN ResourceManager",
                  "https://proxy.example/yarn/cluster/yarn/")] |}
           "https://proxy.example/yarn/cluster/yarn/"
           "2022-01-01 [] - " "cluster-m.internal:35525"
           "application_1646000000000_0002"); reflexivity.
Defined.

(** X11. A line does not have to be well formed for
    [parse_master_url_and_dashboard] to be called on it, and then the call
    raises [IndexError] (after fetching the descriptor): when the line has no
    "Found Web Interface " (with its trailing blank), and when it has one
    but no " of application " after it. *)
Theorem parse_master_url_and_dashboard_malformed_line :
  forall (P : Platform) (s : State) (details : Cluster) (endpoint line : string),
    let md := cluster_metadata s in
    get_cluster_rpc P (trace s) (project_id md) (region md) (cluster_name md)
    = Ok details ->
    lookup "YARN ResourceManager" (http_ports details) = Some endpoint ->
    (Text.contains "Found Web Interface " line = false
     \/ exists text rest,
          line = text +++ "Found Web Interface " +++ rest
          /\ Text.contains "Found Web Interface " (text +++ "Found Web Interface")
             = false
          /\ Text.contains "Found Web Interface " rest = false
          /\ Text.contains " of application " rest = false) ->
    parse_master_url_and_dashboard P line s
    = Raised IndexError (record_event (get_event md) s).
Proof.
  intros P s details endpoint line md Hrpc Hports Hline.
  rewrite (parse_after_fetch P _ s details endpoint Hrpc Hports). fold md.
  destruct Hline as [Hno|(text & rest & -> & Hm1 & Hm2 & Ha)].
  - rewrite (SplitFacts.split_go_absent _ _ Hno). reflexivity.
  - assert (E1 : Text.split_go "Found Web Interface " 0
                   (text +++ "Found Web Interface " +++ rest)
                 = [text; rest]).
    { rewrite <- (SplitFacts.split_go_absent _ _ Hm2).
      exact (SplitFacts.split_go_first "Found Web Interface" " "%char text
               rest Hm1). }
    rewrite E1.
    unfold bind at 1, py_index at 1. cbn [nth_error]. unfold ret at 1.
    cbv zeta. rewrite (SplitFacts.split_go_absent _ _ Ha). reflexivity.
Qed.

Lemma parse_master_url_and_dashboard_malformed_line_witness :
  parse_master_url_and_dashboard (Sample.platform None None 0 Sample.yarn [])
    ("INFO Found Web Interface" +++ nl) Sample.fresh
  = Raised IndexError
      (with_trace Sample.fresh
         [GetClusterRpc "test-project" "us-central1" "test-cluster"])
  /\ parse_master_url_and_dashboard (Sample.platform None None 0 Sample.yarn [])
       ("INFO Found Web Interface host:50000" +++ nl) Sample.fresh
     = Raised IndexError
         (with_trace Sample.fresh
            [GetClusterRpc "test-project" "us-central1" "test-cluster"]).
Proof.
  split.
  - apply (parse_master_url_and_dashboard_malformed_line
             (Sample.platform None None 0 Sample.yarn []) Sample.fresh
             {| status_state_name := "RUNNING"; config_bucket := "bucket";
                http_ports := [("YARN ResourceManager", Sample.yarn)] |}
             Sample.yarn ("INFO Found Web Interface" +++ nl));
      [reflexivity|reflexivity|left; reflexivity].
  - apply (parse_master_url_and_dashboard_malformed_line
             (Sample.platform None None 0 Sample.yarn []) Sample.fresh
             {| status_state_name := "RUNNING"; config_bucket := "bucket";
                http_ports := [("YARN ResourceManager", Sample.yarn)] |}
             Sample.yarn ("INFO Found Web Interface host:50000" +++ nl));
      [reflexivity|reflexivity|].
    right. exists "INFO ", ("host:50000" +++ nl). repeat split.
Defined.

Lemma parse_after_fetch_absent (P : Platform) (line : string) (s : State)
    (details : Cluster) :
  let md := cluster_metadata s in
  get_cluster_rpc P (trace s) (project_id md) (region md) (cluster_name md)
  = Ok details ->
  lookup "YARN ResourceManager" (http_ports details) = None ->
  parse_master_url_and_dashboard P line s
  = (rest <- py_index (Text.split_go "Found Web Interface " 0 line) 1 ;;
     let segment := Text.split_go " of application " 0 rest in
     master_url <- py_index segment 0 ;;
     raw_id <- py_index segment 1 ;;
     dashboard <- re_sub P "/yarn/"
                    ("/gateway/default/yarn/proxy/" +++
                     Text.strip_quotes_and_eol raw_id +++ "/") "" ;;
     ret (Some master_url, Some dashboard))
      (record_event (get_event md) s).
Proof.
  intros md Hrpc Hports.
  unfold parse_master_url_and_dashboard. unfold bind at 1.
  rewrite (get_cluster_details_ok P s details Hrpc).
  unfold bind at 1, py_getitem. rewrite Hports. unfold ret at 1.
  reflexivity.
Qed.

(** X12. A descriptor without a "YARN ResourceManager" port raises nothing:
    the port reads as the empty string, so whatever
    [parse_master_url_and_dashboard] returns then has the empty string as
    its dashboard; on the line "... Found Web Interface host:50000 of
    application 'application_123_0001'.\n" it returns "host:50000" and "". *)
Theorem parse_master_url_and_dashboard_without_yarn_port :
  forall (P : Platform) (s : State) (details : Cluster),
    let md := cluster_metadata s in
    get_cluster_rpc P (trace s) (project_id md) (region md) (cluster_name md)
    = Ok details ->
    lookup "YARN ResourceManager" (http_ports details) = None ->
    (forall line u d s',
        parse_master_url_and_dashboard P line s = Returned (u, d) s' ->
        d = Some "")
    /\ parse_master_url_and_dashboard P
         ("... Found Web Interface host:50000 of application 'application_123_0001'."
          +++ nl) s
       = Returned (Some "host:50000", Some "") (record_event (get_event md) s).
Proof.
  intros P s details md Hrpc Hports. split.
  - intros line u d s'.
    rewrite (parse_after_fetch_absent P line s details Hrpc Hports).
    unfold re_sub. run.
    break_matches; intros H; try discriminate H;
      injection H as _ <- _; reflexivity.
  - rewrite (parse_after_fetch_absent P _ s details Hrpc Hports).
    reflexivity.
Qed.

Lemma parse_master_url_and_dashboard_without_yarn_port_witness :
  parse_master_url_and_dashboard (SampleMore.vanishing 1 IndexError)
    Sample.marker_line Sample.fresh
  = Returned (Some "host:50000", Some "")
      (with_trace Sample.fresh
         [GetClusterRpc "test-project" "us-central1" "test-cluster"]).
Proof.
  apply (parse_master_url_and_dashboard_without_yarn_port
           (SampleMore.vanishing 1 IndexError) Sample.fresh
           {| status_state_name := "CREATING"; config_bucket := "bucket";
              http_ports := [] |}); reflexivity.
Defined.

(** X13. When the YARN endpoint has no "/yarn/" in it, the dashboard that
    [parse_master_url_and_dashboard] returns, on whatever line it returns,
    is that endpoint as it is: the application id does not appear in it. *)
Theorem parse_master_url_and_dashboard_endpoint_without_yarn :
  forall (P : Platform) (s s' : State) (details : Cluster)
         (endpoint line : string) (u d : option string),
    let md := cluster_metadata s in
    get_cluster_rpc P (trace s) (project_id md) (region md) (cluster_name md)
    = Ok details ->
    lookup "YARN ResourceManager" (http_ports details) = Some endpoint ->
    Text.contains "/yarn/" endpoint = false ->
    parse_master_url_and_dashboard P line s = Returned (u, d) s' ->
    d = Some endpoint.
Proof.
  intros P s s' details endpoint line u d md Hrpc Hports Hyarn.
  rewrite (parse_after_fetch P _ s details endpoint Hrpc Hports).
  unfold re_sub. run.
  break_matches; intros H; try discriminate H;
    injection H as _ <- _;
    now rewrite (TextFacts.replace_all_absent _ _ _ Hyarn).
Qed.

Lemma parse_master_url_and_dashboard_endpoint_without_yarn_witness :
  parse_master_url_and_dashboard
    (Sample.platform None None 0 "https://proxy.example/resourcemanager/" [])
    Sample.marker_line Sample.fresh
  = Returned (Some "host:50000", Some "https://proxy.example/resourcemanager/")
      (with_trace Sample.fresh
         [GetClusterRpc "test-project" "us-central1" "test-cluster"])
  /\ Some "https://proxy.example/resourcemanager/"
     = Some "https://proxy.example/resourcemanager/".
Proof.
  split; [reflexivity|].
  apply (parse_master_url_and_dashboard_endpoint_without_yarn
           (Sample.platform None None 0 "https://proxy.example/resourcemanager/" [])
           Sample.fresh
           (with_trace Sample.fresh
              [GetClusterRpc "test-project" "us-central1" "test-cluster"])
           {| status_state_name := "RUNNING"; config_bucket := "bucket";
              http_ports :=
                [("YARN ResourceManager",
                  "https://proxy.example/resourcemanager/")] |}
           "https://proxy.example/resourcemanager/" Sample.marker_line
           (Some "host:50000") (Some "https://proxy.example/resourcemanager/"));
    reflexivity.
Defined.

(** X14. The substitution [re.sub('\'|.\n', '', text)] that extracts the
    application id never leaves a quote in its result, and gives back
    unchanged a text that has neither quote nor newline. *)
Theorem application_id_has_no_quote :
  forall text : string,
    Text.has_char Text.quote (Text.strip_quotes_and_eol text) = false
    /\ (Text.has_char Text.quote text = false ->
        Text.has_char Text.newline text = false ->
        Text.strip_quotes_and_eol text = text).
Proof.
  intros text. split; [apply SplitFacts.strip_no_quote|].
  induction text as [|c text IH]; intros Hq Hn; [reflexivity|].
  cbn [Text.has_char] in Hq, Hn. apply orb_false_iff in Hq, Hn.
  destruct Hq as [Hqc Hq], Hn as [Hnc Hn].
  cbn [Text.strip_quotes_and_eol]. rewrite Ascii.eqb_sym in Hqc. rewrite Hqc.
  destruct text as [|d text]; [reflexivity|].
  pose proof Hn as Hn'. cbn [Text.has_char] in Hn'. apply orb_false_iff in Hn'.
  destruct Hn' as [Hnd _]. rewrite Ascii.eqb_sym in Hnd. rewrite Hnd.
  rewrite andb_false_r. f_equal. apply IH; assumption.
Qed.

Lemma application_id_has_no_quote_witness :
  Text.strip_quotes_and_eol "application_123_0001" = "application_123_0001".
Proof.
  apply (application_id_has_no_quote "application_123_0001"); reflexivity.
Defined.

(* ================================================================== *)
(** ** get_master_url_and_dashboard: lines that stop the scan *)
(* ================================================================== *)

Lemma get_master_url_and_dashboard_listed (P : Platform) (s : State)
    (files : list string) :
  fs_list P (trace s) (_staging_directory s) = Ok files ->
  get_master_url_and_dashboard P s
  = scan_logs P (filter is_startup_log files)
      (record_event (FsList (_staging_directory s)) s).
Proof.
  intros Hlist. unfold get_master_url_and_dashboard. run. rewrite Hlist.
  reflexivity.
Qed.

Lemma scan_lines_undecodable (P : Platform) (quiet : list string) (e : exn)
    (rest : list (reply string)) (s : State) :
  forallb (fun text => negb (has_marker text)) quiet = true ->
  scan_lines P (map Ok quiet ++ Err e :: rest) s = Raised e s.
Proof.
  intros Hquiet.
  induction quiet as [|text quiet IH]; cbn [map app scan_lines].
  - reflexivity.
  - simpl in Hquiet. apply andb_true_iff in Hquiet. destruct Hquiet as [Ht Hq].
    unfold bind at 1, lift_reply, ret at 1.
    unfold has_marker in Ht. apply negb_true_iff in Ht. rewrite Ht.
    apply IH, Hq.
Qed.

Lemma scan_logs_undecodable (P : Platform) :
  forall (before : list string) (path : string) (after : list string)
         (contents : list (list (reply string))) (quiet : list string)
         (e : exn) (rest : list (reply string)) (s : State),
    serves P (trace s) before contents ->
    forallb (forallb silent) contents = true ->
    fs_open P (trace s ++ map FsOpen before) path
    = Ok (map Ok quiet ++ Err e :: rest) ->
    forallb (fun text => negb (has_marker text)) quiet = true ->
    scan_logs P (before ++ path :: after) s
    = Raised e (with_trace s (trace s ++ map FsOpen before ++ [FsOpen path])).
Proof.
  induction before as [|b before IH];
    intros path after contents quiet e rest s Hserves Hsilent Hopen Hquiet.
  - cbn [app map] in *. rewrite app_nil_r in Hopen.
    cbn [scan_logs]. unfold bind at 1, fs_readlines. rewrite Hopen.
    unfold bind at 1.
    rewrite (scan_lines_undecodable P quiet e rest _ Hquiet).
    reflexivity.
  - destruct contents as [|lines contents]; [contradiction|].
    destruct Hserves as [Hb Hserves].
    simpl in Hsilent. apply andb_true_iff in Hsilent.
    destruct Hsilent as [Hlines Hcontents].
    cbn [app scan_logs]. unfold bind at 1, fs_readlines. rewrite Hb.
    unfold bind at 1. rewrite (scan_lines_silent P lines _ Hlines).
    rewrite (IH path after contents quiet e rest
               (record_event (FsOpen b) s) Hserves Hcontents); auto.
    + unfold with_trace.
      cbn [record_event trace cluster_metadata _staging_directory map app].
      now rewrite <- !app_assoc.
    + cbn [record_event trace map] in *. now rewrite <- app_assoc.
Qed.

(** X15. The scan of the startup logs decodes every line before it tests it:
    a line that does not decode, met before any line with "Found Web
    Interface", ends [get_master_url_and_dashboard] with the decoding error;
    the lines and logs after it are not read. *)
Theorem get_master_url_and_dashboard_undecodable_line :
  forall (P : Platform) (s : State) (files before : list string)
         (path : string) (after : list string)
         (contents : list (list (reply string))) (quiet : list string)
         (e : exn) (rest : list (reply string)),
    fs_list P (trace s) (_staging_directory s) = Ok files ->
    let listed := record_event (FsList (_staging_directory s)) s in
    filter is_startup_log files = before ++ path :: after ->
    serves P (trace listed) before contents ->
    forallb (forallb silent) contents = true ->
    fs_open P (trace listed ++ map FsOpen before) path
    = Ok (map Ok quiet ++ Err e :: rest) ->
    forallb (fun text => negb (has_marker text)) quiet = true ->
    get_master_url_and_dashboard P s
    = Raised e
        (with_trace s (trace listed ++ map FsOpen before ++ [FsOpen path])).
Proof.
  intros P s files before path after contents quiet e rest Hlist listed Hlogs
    Hserves Hsilent Hopen Hquiet.
  rewrite (get_master_url_and_dashboard_listed P s files Hlist), Hlogs.
  exact (scan_logs_undecodable P before path after contents quiet e rest listed
           Hserves Hsilent Hopen Hquiet).
Qed.

Lemma get_master_url_and_dashboard_undecodable_line_witness :
  get_master_url_and_dashboard
    (Sample.platform None None 0 Sample.yarn SampleMore.garbled_files)
    (set_staging_directory (Some Sample.staging) Sample.fresh)
  = Raised UnicodeDecodeError
      (with_trace (set_staging_directory (Some Sample.staging) Sample.fresh)
         [ FsList (Some Sample.staging);
           FsOpen (Sample.staging +++ "test-cluster-m/dataproc-startup-script_output") ]).
Proof.
  apply (get_master_url_and_dashboard_undecodable_line
           (Sample.platform None None 0 Sample.yarn SampleMore.garbled_files)
           (set_staging_directory (Some Sample.staging) Sample.fresh)
           (map fst SampleMore.garbled_files) []
           (Sample.staging +++ "test-cluster-m/dataproc-startup-script_output")
           [] [] ["starting" +++ nl] UnicodeDecodeError [Ok Sample.marker_line]);
    reflexivity.
Defined.

(** X16. The scan looks for "Found Web Interface" but the parser splits on
    "Found Web Interface " with a trailing blank: when the first line that
    passes the test lacks that blank, [get_master_url_and_dashboard] raises
    [IndexError] (after fetching the descriptor) instead of going on to the
    next line. *)
Theorem get_master_url_and_dashboard_marker_without_blank :
  forall (P : Platform) (s : State) (files before : list string)
         (path : string) (after : list string)
         (contents : list (list (reply string))) (quiet : list string)
         (line : string) (rest : list (reply string)) (details : Cluster)
         (endpoint : string),
    let md := cluster_metadata s in
    fs_list P (trace s) (_staging_directory s) = Ok files ->
    let listed := record_event (FsList (_staging_directory s)) s in
    let opened := trace listed ++ map FsOpen before ++ [FsOpen path] in
    filter is_startup_log files = before ++ path :: after ->
    serves P (trace listed) before contents ->
    forallb (forallb silent) contents = true ->
    fs_open P (trace listed ++ map FsOpen before) path
    = Ok (map Ok quiet ++ Ok line :: rest) ->
    forallb (fun text => negb (has_marker text)) quiet = true ->
    has_marker line = true ->
    Text.contains "Found Web Interface " line = false ->
    get_cluster_rpc P opened (project_id md) (region md) (cluster_name md)
    = Ok details ->
    lookup "YARN ResourceManager" (http_ports details) = Some endpoint ->
    get_master_url_and_dashboard P s
    = Raised IndexError (with_trace s (opened ++ [get_event md])).
Proof.
  intros P s files before path after contents quiet line rest details endpoint
    md Hlist listed opened Hlogs Hserves Hsilent Hopen Hquiet Hmarker Hblank
    Hrpc Hports.
  rewrite (get_master_url_and_dashboard_listed P s files Hlist), Hlogs.
  fold listed.
  rewrite (scan_logs_found P before path after contents quiet line rest listed
             Hserves Hsilent Hopen Hquiet Hmarker).
  fold opened.
  rewrite (parse_after_fetch P line (with_trace listed opened) details endpoint
             Hrpc Hports).
  rewrite (SplitFacts.split_go_absent _ _ Hblank). reflexivity.
Qed.

Lemma get_master_url_and_dashboard_marker_without_blank_witness :
  get_master_url_and_dashboard
    (Sample.platform None None 0 Sample.yarn SampleMore.terse_files)
    (set_staging_directory (Some Sample.staging) Sample.fresh)
  = Raised IndexError
      (with_trace (set_staging_directory (Some Sample.staging) Sample.fresh)
         [ FsList (Some Sample.staging);
           FsOpen (Sample.staging +++ "test-cluster-m/dataproc-startup-script_output");
           GetClusterRpc "test-project" "us-central1" "test-cluster" ]).
Proof.
  apply (get_master_url_and_dashboard_marker_without_blank
           (Sample.platform None None 0 Sample.yarn SampleMore.terse_files)
           (set_staging_directory (Some Sample.staging) Sample.fresh)
           (map fst SampleMore.terse_files) []
           (Sample.staging +++ "test-cluster-m/dataproc-startup-script_output")
           [] [] [] ("Found Web Interface" +++ nl) [Ok Sample.marker_line]
           {| status_state_name := "RUNNING"; config_bucket := "bucket";
              http_ports := [("YARN ResourceManager", Sample.yarn)] |}
           Sample.yarn); reflexivity.
Defined.

(* ================================================================== *)
(** ** get_staging_location: what it returns and how it fails *)
(* ================================================================== *)

Lemma find_none_iff {A} (f : A -> bool) (l : list A) :
  find f l = None <-> forall x, In x l -> f x = false.
Proof.
  split; [apply find_none|].
  induction l as [|a l IH]; intros H; [reflexivity|].
  simpl. rewrite (H a (or_introl eq_refl)).
  apply IH. intros x Hx. apply H. now right.
Qed.

Lemma find_some_split {A} (f : A -> bool) (l : list A) (x : A) :
  find f l = Some x ->
  exists before after,
    l = before ++ x :: after
    /\ f x = true
    /\ forall p, In p before -> f p = false.
Proof.
  induction l as [|a l IH]; intros H; [discriminate|].
  simpl in H. destruct (f a) eqn:Ha.
  - injection H as ->. exists [], l. repeat split; auto. intros p [].
  - destruct (IH H) as (before & after & -> & Hx & Hbefore).
    exists (a :: before), after. repeat split; auto.
    intros p [<-|Hp]; auto.
Qed.

(** The returned directory is what precedes the first occurrence of the
    name in the first listed path that contains the name. *)
Lemma staging_location_some (q : string) (c : ascii) (files : list string)
    (dir : string) :
  let name := q +++ String c "" in
  staging_location name files = Some dir ->
  exists before path after rest,
    files = before ++ path :: after
    /\ (forall p, In p before -> Text.contains name p = false)
    /\ path = dir +++ name +++ rest
    /\ Text.contains name (dir +++ q) = false.
Proof.
  intros name. subst name. unfold staging_location.
  destruct (find (Text.contains (q +++ String c "")) files) as [path|] eqn:Hfind;
    [|discriminate].
  intros H. injection H as <-.
  destruct (find_some_split _ _ _ Hfind) as (before & after & -> & Hpath & Hb).
  destruct (TextFacts.first_occurrence q c path Hpath)
    as (pre & post & -> & Hfirst).
  exists before, (pre +++ (q +++ String c "") +++ post), after, post.
  rewrite (SplitFacts.split_go_first q c pre post Hfirst).
  cbn [hd]. repeat split; auto.
Qed.

(** X17. Let the cluster leave CREATING after [k] polls, the descriptor be
    fetched and the listing of "gs://<bucket>/google-cloud-dataproc-metainfo/"
    answer [files].  Then [get_staging_location] returns, for a cluster name
    that is not empty: [None] exactly when no listed path contains the name;
    otherwise the text that precedes the first occurrence of the name in the
    first listed path that contains it. *)
Theorem get_staging_location_result :
  forall (P : Platform) (k : nat) (s : State) (last details : Cluster)
         (files : list string) (q : string) (c : ascii),
    let md := cluster_metadata s in
    let gcs_path :=
      "gs://" +++ config_bucket details +++ "/google-cloud-dataproc-metainfo/" in
    (forall i, i < k ->
       exists d,
         get_cluster_rpc P (trace s ++ polls md i) (project_id md) (region md)
           (cluster_name md) = Ok d
         /\ status_state_name d = "CREATING") ->
    get_cluster_rpc P (trace s ++ polls md k) (project_id md) (region md)
      (cluster_name md) = Ok last ->
    status_state_name last <> "CREATING" ->
    get_cluster_rpc P (trace s ++ polls md k ++ [get_event md]) (project_id md)
      (region md) (cluster_name md) = Ok details ->
    fs_list P (trace s ++ polls md k ++ [get_event md; get_event md])
      (Some gcs_path) = Ok files ->
    cluster_name md = q +++ String c "" ->
    forall fuel, k < fuel ->
      exists r,
        get_staging_location P fuel s
        = Returned r
            (with_trace s
               (trace s ++ polls md k
                  ++ [get_event md; get_event md; FsList (Some gcs_path)]))
        /\ (r = None <->
            forall p, In p files -> Text.contains (cluster_name md) p = false)
        /\ (forall dir,
              r = Some dir ->
              exists before path after rest,
                files = before ++ path :: after
                /\ (forall p, In p before ->
                              Text.contains (cluster_name md) p = false)
                /\ path = dir +++ cluster_name md +++ rest
                /\ Text.contains (cluster_name md) (dir +++ q) = false).
Proof.
  intros P k s last details files q c md gcs_path Hcreating Hlast Hstate
    Hdetails Hlist Hname fuel Hfuel.
  exists (staging_location (cluster_name md) files). split; [|split].
  - apply (get_staging_location_returns P k s last details files); auto.
    intros Hempty. fold md in Hempty. rewrite Hname in Hempty.
    destruct q; discriminate.
  - unfold staging_location. rewrite <- find_none_iff.
    destruct (find _ files); split; congruence.
  - intros dir Hdir. rewrite Hname in *.
    exact (staging_location_some q c files dir Hdir).
Qed.

Lemma get_staging_location_result_witness :
  get_staging_location
    (Sample.platform None None 1 Sample.yarn Sample.silent_files) 2 Sample.fresh
  = Returned (Some Sample.staging)
      (with_trace Sample.fresh
         [ GetClusterRpc "test-project" "us-central1" "test-cluster"; Sleep 15;
           GetClusterRpc "test-project" "us-central1" "test-cluster";
           GetClusterRpc "test-project" "us-central1" "test-cluster";
           FsList (Some "gs://bucket/google-cloud-dataproc-metainfo/") ]).
Proof.
  destruct (get_staging_location_result
              (Sample.platform None None 1 Sample.yarn Sample.silent_files) 1
              Sample.fresh
              {| status_state_name := "RUNNING"; config_bucket := "bucket";
                 http_ports := [("YARN ResourceManager", Sample.yarn)] |}
              {| status_state_name := "RUNNING"; config_bucket := "bucket";
                 http_ports := [("YARN ResourceManager", Sample.yarn)] |}
              (map fst Sample.silent_files) "test-cluste" "r"%char)
    with (fuel := 2) as (r & E & _ & _).
  - intros i Hi. destruct i as [|i]; [eexists; split; reflexivity|lia].
  - reflexivity.
  - discriminate.
  - reflexivity.
  - reflexivity.
  - reflexivity.
  - lia.
  - rewrite E. vm_compute in E. injection E as <-. reflexivity.
Defined.

(** X18. [get_staging_location] does not triage: when the listing of the
    metadata prefix raises, it records "Failed to get <name> cluster staging
    bucket." as an error and raises that very exception, whatever its code
    (or lack of one). *)
Theorem get_staging_location_listing_failure :
  forall (P : Platform) (k : nat) (s : State) (last details : Cluster)
         (e : exn),
    let md := cluster_metadata s in
    let gcs_path :=
      "gs://" +++ config_bucket details +++ "/google-cloud-dataproc-metainfo/" in
    (forall i, i < k ->
       exists d,
         get_cluster_rpc P (trace s ++ polls md i) (project_id md) (region md)
           (cluster_name md) = Ok d
         /\ status_state_name d = "CREATING") ->
    get_cluster_rpc P (trace s ++ polls md k) (project_id md) (region md)
      (cluster_name md) = Ok last ->
    status_state_name last <> "CREATING" ->
    get_cluster_rpc P (trace s ++ polls md k ++ [get_event md]) (project_id md)
      (region md) (cluster_name md) = Ok details ->
    fs_list P (trace s ++ polls md k ++ [get_event md; get_event md])
      (Some gcs_path) = Err e ->
    forall fuel, k < fuel ->
      get_staging_location P fuel s
      = Raised e
          (with_trace s
             (trace s ++ polls md k
                ++ [get_event md; get_event md; FsList (Some gcs_path);
                    Log ERROR ("Failed to get " +++ cluster_name md +++
                               " cluster staging bucket.")])).
Proof.
  intros P k s last details e md gcs_path Hcreating Hlast Hstate Hdetails
    Hlist fuel Hfuel.
  unfold get_staging_location, try_except, try_except_else. unfold bind at 1.
  rewrite (polling_returns P k s last Hcreating Hlast Hstate fuel Hfuel).
  unfold bind at 1. rewrite get_cluster_details_ok with (d := details);
    [|exact Hdetails].
  unfold bind at 1, fs__list.
  cbn [record_event with_trace trace cluster_metadata _staging_directory].
  fold md. replace ((trace s ++ polls md k ++ [get_event md]) ++ [get_event md])
    with (trace s ++ polls md k ++ [get_event md; get_event md])
    by (now rewrite <- !app_assoc).
  fold gcs_path. rewrite Hlist.
  run. unfold with_trace, record_event.
  cbn [trace cluster_metadata _staging_directory].
  fold md. do 2 f_equal. now rewrite <- !app_assoc.
Qed.

Lemma get_staging_location_listing_failure_witness :
  get_staging_location (SampleMore.unlistable (ApiError None "timeout")) 1
    Sample.fresh
  = Raised (ApiError None "timeout")
      (with_trace Sample.fresh
         [ GetClusterRpc "test-project" "us-central1" "test-cluster";
           GetClusterRpc "test-project" "us-central1" "test-cluster";
           FsList (Some "gs://bucket/google-cloud-dataproc-metainfo/");
           Log ERROR "Failed to get test-cluster cluster staging bucket." ]).
Proof.
  apply (get_staging_location_listing_failure
           (SampleMore.unlistable (ApiError None "timeout")) 0 Sample.fresh
           {| status_state_name := "RUNNING"; config_bucket := "bucket";
              http_ports := [] |}
           {| status_state_name := "RUNNING"; config_bucket := "bucket";
              http_ports := [] |}
           (ApiError None "timeout")).
  - intros i Hi. lia.
  - reflexivity.
  - discriminate.
  - reflexivity.
  - reflexivity.
  - lia.
Defined.

(* ================================================================== *)
(** ** create_cluster: the resolved endpoint, and the conflict *)
(* ================================================================== *)

(** X19. Let the create RPC succeed, the cluster leave CREATING after [k]
    polls, the staging location be resolved to [dir], and the scan of the
    startup logs reach a first line with "Found Web Interface" on which
    [parse_master_url_and_dashboard] returns [(u, d)].  Then [create_cluster]
    returns with [_staging_directory] set to [dir], [master_url] to [u] and
    [dashboard] to [d], the identity of the cluster unchanged; and when [u]
    is not empty every later [create_cluster] returns at once and does
    nothing. *)
Theorem create_cluster_resolves_endpoint :
  forall (P : Platform) (cluster : pyval) (k : nat) (s : State)
         (last details : Cluster) (metafiles files before : list string)
         (path : string) (after : list string)
         (contents : list (list (reply string))) (quiet : list string)
         (line : string) (rest : list (reply string)) (u d : option string)
         (s_end : State),
    let md := cluster_metadata s in
    let create := CreateClusterRpc (project_id md) (region md) cluster in
    let t0 :=
      trace s ++ [create;
                  Log INFO ("Cluster created successfully: " +++ cluster_name md)] in
    let gcs_path :=
      "gs://" +++ config_bucket details +++ "/google-cloud-dataproc-metainfo/" in
    let t1 :=
      t0 ++ polls md k ++ [get_event md; get_event md; FsList (Some gcs_path)] in
    let dir := staging_location (cluster_name md) metafiles in
    let opened := (t1 ++ [FsList dir]) ++ map FsOpen before ++ [FsOpen path] in
    truthy (master_url md) = false ->
    create_cluster_rpc P (trace s) (project_id md) (region md) cluster = None ->
    (forall i, i < k ->
       exists d,
         get_cluster_rpc P (t0 ++ polls md i) (project_id md) (region md)
           (cluster_name md) = Ok d
         /\ status_state_name d = "CREATING") ->
    get_cluster_rpc P (t0 ++ polls md k) (project_id md) (region md)
      (cluster_name md) = Ok last ->
    status_state_name last <> "CREATING" ->
    get_cluster_rpc P (t0 ++ polls md k ++ [get_event md]) (project_id md)
      (region md) (cluster_name md) = Ok details ->
    fs_list P (t0 ++ polls md k ++ [get_event md; get_event md])
      (Some gcs_path) = Ok metafiles ->
    cluster_name md <> "" ->
    fs_list P t1 dir = Ok files ->
    filter is_startup_log files = before ++ path :: after ->
    serves P (t1 ++ [FsList dir]) before contents ->
    forallb (forallb silent) contents = true ->
    fs_open P ((t1 ++ [FsList dir]) ++ map FsOpen before) path
    = Ok (map Ok quiet ++ Ok line :: rest) ->
    forallb (fun text => negb (has_marker text)) quiet = true ->
    has_marker line = true ->
    parse_master_url_and_dashboard P line
      {| cluster_metadata := md; _staging_directory := dir; trace := opened |}
    = Returned (u, d) s_end ->
    forall fuel, k < fuel ->
      let s' :=
        {| cluster_metadata :=
             {| project_id := project_id md;
                region := region md;
                cluster_name := cluster_name md;
                master_url := u;
                dashboard := d |};
           _staging_directory := dir;
           trace := trace s_end |} in
      create_cluster P fuel cluster s = Returned tt s'
      /\ (truthy u = true ->
          forall fuel' cluster',
            create_cluster P fuel' cluster' s' = Returned tt s').
Proof.
  intros P cluster k s last details metafiles files before path after contents
    quiet line rest u d s_end md create t0 gcs_path t1 dir opened Hurl Hcreate
    Hcreating Hlast Hstate Hdetails Hmeta Hname Hlist Hlogs Hserves Hsilent
    Hopen Hquiet Hmarker Hparse fuel Hfuel s'.
  split.
  - set (created :=
           record_event
             (Log INFO ("Cluster created successfully: " +++ cluster_name md))
             (record_event create s)).
    assert (Ht0 : trace created = t0).
    { unfold created, t0. simpl. now rewrite <- app_assoc. }
    assert (E : create_cluster P fuel cluster s
                = (dir <- get_staging_location P fuel ;;
                   modify (set_staging_directory dir) ;;;
                   r <- get_master_url_and_dashboard P ;;
                   modify (set_master_url (fst r)) ;;;
                   modify (set_dashboard (snd r))) created).
    { unfold create_cluster, try_except_else, client_create_cluster.
      unfold bind at 1, get at 1. fold md. rewrite Hurl.
      cbv beta iota zeta. fold md. rewrite Hcreate. reflexivity. }
    rewrite E. unfold bind at 1.
    rewrite (get_staging_location_returns P k created last details metafiles);
      try rewrite Ht0; auto.
    change (cluster_metadata created) with md. fold gcs_path t1 dir.
    unfold bind at 1, modify at 1. unfold bind at 1.
    set (located := set_staging_directory dir (with_trace created t1)).
    assert (Hmaster : get_master_url_and_dashboard P located
                      = Returned (u, d) s_end).
    { rewrite (get_master_url_and_dashboard_listed P located files);
        [|exact Hlist].
      rewrite Hlogs.
      rewrite (scan_logs_found P before path after contents quiet line rest
                 (record_event (FsList (_staging_directory located)) located)
                 Hserves Hsilent Hopen Hquiet Hmarker).
      exact Hparse. }
    rewrite Hmaster.
    pose proof (preserves_parse_master_url_and_dashboard attributes
                  attributes_trace_blind P line
                  {| cluster_metadata := md; _staging_directory := dir;
                     trace := opened |}) as Hkeep.
    rewrite Hparse in Hkeep. unfold attributes in Hkeep.
    cbn [final cluster_metadata _staging_directory] in Hkeep.
    injection Hkeep as Hmd Hdir.
    unfold bind, modify. unfold s', set_dashboard, set_master_url.
    cbn [cluster_metadata _staging_directory trace fst snd project_id region
         cluster_name master_url dashboard].
    rewrite Hmd, Hdir. reflexivity.
  - intros Hu fuel' cluster'. unfold create_cluster. run.
    cbn [s' cluster_metadata master_url]. rewrite Hu. reflexivity.
Qed.

Lemma create_cluster_resolves_endpoint_witness :
  let P := Sample.platform None None 1 Sample.yarn Sample.announcing_files in
  exists s',
    create_cluster P 2 PNone Sample.fresh = Returned tt s'
    /\ cluster_metadata s'
       = {| project_id := "test-project";
            region := "us-central1";
            cluster_name := "test-cluster";
            master_url := Some "host:50000";
            dashboard :=
              Some "https://proxy.example/gateway/default/yarn/proxy/application_123_0001/" |}
    /\ _staging_directory s' = Some Sample.staging
    /\ create_cluster P 0 PNone s' = Returned tt s'.
Proof.
  intros P.
  destruct (create_cluster_resolves_endpoint
              P PNone 1 Sample.fresh
              {| status_state_name := "RUNNING"; config_bucket := "bucket";
                 http_ports := [("YARN ResourceManager", Sample.yarn)] |}
              {| status_state_name := "RUNNING"; config_bucket := "bucket";
                 http_ports := [("YARN ResourceManager", Sample.yarn)] |}
              (map fst Sample.announcing_files)
              (map fst Sample.announcing_files)
              [Sample.staging +++ "test-cluster-w-0/dataproc-startup-script_output"]
              (Sample.staging +++ "test-cluster-m/dataproc-startup-script_output")
              []
              [[Ok ("worker up" +++ nl)]]
              ["starting" +++ nl]
              Sample.marker_line
              [Err UnicodeDecodeError]
              (Some "host:50000")
              (Some "https://proxy.example/gateway/default/yarn/proxy/application_123_0001/")
              (final
                 (parse_master_url_and_dashboard P Sample.marker_line
                    {| cluster_metadata := Sample.metadata;
                       _staging_directory := Some Sample.staging;
                       trace :=
                         [ CreateClusterRpc "test-project" "us-central1" PNone;
                           Log INFO "Cluster created successfully: test-cluster";
                           GetClusterRpc "test-project" "us-central1" "test-cluster";
                           Sleep 15;
                           GetClusterRpc "test-project" "us-central1" "test-cluster";
                           GetClusterRpc "test-project" "us-central1" "test-cluster";
                           FsList (Some "gs://bucket/google-cloud-dataproc-metainfo/");
                           FsList (Some Sample.staging);
                           FsOpen (Sample.staging +++ "test-cluster-w-0/dataproc-startup-script_output");
                           FsOpen (Sample.staging +++ "test-cluster-m/dataproc-startup-script_output") ] |})))
    with (fuel := 2) as [Hfirst Hsecond].
  - reflexivity.
  - reflexivity.
  - intros i Hi. destruct i as [|i]; [eexists; split; reflexivity|lia].
  - reflexivity.
  - discriminate.
  - reflexivity.
  - reflexivity.
  - discriminate.
  - reflexivity.
  - reflexivity.
  - repeat split.
  - reflexivity.
  - reflexivity.
  - reflexivity.
  - reflexivity.
  - reflexivity.
  - lia.
  - eexists. split; [exact Hfirst|].
    split; [reflexivity|]. split; [reflexivity|].
    exact (Hsecond eq_refl 0 PNone).
Defined.

Lemma create_cluster_conflict (P : Platform) (fuel : nat) (cluster : pyval)
    (s : State) (e : exn) :
  let md := cluster_metadata s in
  truthy (master_url md) = false ->
  create_cluster_rpc P (trace s) (project_id md) (region md) cluster = Some e ->
  exc_code e = Some 409%Z ->
  create_cluster P fuel cluster s
  = Returned tt
      (with_trace s
         (trace s ++
          [CreateClusterRpc (project_id md) (region md) cluster;
           Log INFO ("Cluster " +++ cluster_name md +++
                     " already exists. Continuing...")])).
Proof.
  intros md Hurl Hrpc Hcode.
  rewrite (create_cluster_raises P fuel cluster s e _ Hurl Hrpc Hcode).
  cbn [Z.eqb Pos.eqb]. unfold with_trace, record_event.
  cbn [trace cluster_metadata _staging_directory]. fold md.
  now rewrite <- app_assoc.
Qed.

(** X20. A manager cannot adopt a cluster that already exists: as long as the
    create RPC answers with code 409, [create_cluster] returns as if all were
    well, but however often it is called the attributes of the manager stay
    what they were ([master_url] unset, no staging directory resolved) and
    each call sends the create RPC again, followed by one INFO record, and
    nothing else. *)
Theorem create_cluster_conflict_never_resolves :
  forall (P : Platform) (fuel : nat) (cluster : pyval) (e : exn) (n : nat)
         (s : State),
    let md := cluster_metadata s in
    truthy (master_url md) = false ->
    (forall t,
        create_cluster_rpc P t (project_id md) (region md) cluster = Some e) ->
    exc_code e = Some 409%Z ->
    create_cluster_repeatedly P fuel cluster n s
    = Returned tt
        (with_trace s
           (trace s ++
            concat
              (repeat
                 [CreateClusterRpc (project_id md) (region md) cluster;
                  Log INFO ("Cluster " +++ cluster_name md +++
                            " already exists. Continuing...")] n))).
Proof.
  intros P fuel cluster e n. induction n as [|n IH]; intros s md Hurl Hrpc Hcode.
  - simpl. now rewrite app_nil_r, with_trace_same.
  - cbn [create_cluster_repeatedly]. unfold bind.
    rewrite (create_cluster_conflict P fuel cluster s e Hurl (Hrpc _) Hcode).
    fold md. rewrite IH; auto.
    cbn [with_trace trace cluster_metadata repeat concat]. fold md.
    unfold with_trace. cbn [cluster_metadata _staging_directory].
    do 2 f_equal. rewrite <- app_assoc. reflexivity.
Qed.

Lemma create_cluster_conflict_never_resolves_witness :
  create_cluster_repeatedly
    (Sample.platform (Some (ApiError (Some 409%Z) "exists")) None 0 Sample.yarn
       Sample.announcing_files) 3 PNone 2 Sample.fresh
  = Returned tt
      (with_trace Sample.fresh
         [ CreateClusterRpc "test-project" "us-central1" PNone;
           Log INFO "Cluster test-cluster already exists. Continuing...";
           CreateClusterRpc "test-project" "us-central1" PNone;
           Log INFO "Cluster test-cluster already exists. Continuing..." ]).
Proof.
  apply (create_cluster_conflict_never_resolves
           (Sample.platform (Some (ApiError (Some 409%Z) "exists")) None 0
              Sample.yarn Sample.announcing_files) 3 PNone
           (ApiError (Some 409%Z) "exists") 2 Sample.fresh); reflexivity.
Defined.

(** X21. The staging directory is assigned before the endpoint is looked
    for, outside any handler: when the create RPC has succeeded and the
    staging location is resolved to [dir] (possibly [None]) but the listing
    of [dir] raises, [create_cluster] raises that very exception, unlogged
    and untranslated, leaving [_staging_directory] set to [dir] and
    [cluster_metadata] as it was. *)
Theorem create_cluster_endpoint_failure_keeps_staging_directory :
  forall (P : Platform) (cluster : pyval) (k : nat) (s : State)
         (last details : Cluster) (metafiles : list string) (e : exn),
    let md := cluster_metadata s in
    let create := CreateClusterRpc (project_id md) (region md) cluster in
    let t0 :=
      trace s ++ [create;
                  Log INFO ("Cluster created successfully: " +++ cluster_name md)] in
    let gcs_path :=
      "gs://" +++ config_bucket details +++ "/google-cloud-dataproc-metainfo/" in
    let t1 :=
      t0 ++ polls md k ++ [get_event md; get_event md; FsList (Some gcs_path)] in
    let dir := staging_location (cluster_name md) metafiles in
    truthy (master_url md) = false ->
    create_cluster_rpc P (trace s) (project_id md) (region md) cluster = None ->
    (forall i, i < k ->
       exists d,
         get_cluster_rpc P (t0 ++ polls md i) (project_id md) (region md)
           (cluster_name md) = Ok d
         /\ status_state_name d = "CREATING") ->
    get_cluster_rpc P (t0 ++ polls md k) (project_id md) (region md)
      (cluster_name md) = Ok last ->
    status_state_name last <> "CREATING" ->
    get_cluster_rpc P (t0 ++ polls md k ++ [get_event md]) (project_id md)
      (region md) (cluster_name md) = Ok details ->
    fs_list P (t0 ++ polls md k ++ [get_event md; get_event md])
      (Some gcs_path) = Ok metafiles ->
    cluster_name md <> "" ->
    fs_list P t1 dir = Err e ->
    forall fuel, k < fuel ->
      create_cluster P fuel cluster s
      = Raised e
          {| cluster_metadata := md;
             _staging_directory := dir;
             trace := t1 ++ [FsList dir] |}.
Proof.
  intros P cluster k s last details metafiles e md create t0 gcs_path t1 dir
    Hurl Hcreate Hcreating Hlast Hstate Hdetails Hmeta Hname Hlist fuel Hfuel.
  set (created :=
         record_event
           (Log INFO ("Cluster created successfully: " +++ cluster_name md))
           (record_event create s)).
  assert (Ht0 : trace created = t0).
  { unfold created, t0. simpl. now rewrite <- app_assoc. }
  assert (E : create_cluster P fuel cluster s
              = (dir <- get_staging_location P fuel ;;
                 modify (set_staging_directory dir) ;;;
                 r <- get_master_url_and_dashboard P ;;
                 modify (set_master_url (fst r)) ;;;
                 modify (set_dashboard (snd r))) created).
  { unfold create_cluster, try_except_else, client_create_cluster.
    unfold bind at 1, get at 1. fold md. rewrite Hurl.
    cbv beta iota zeta. fold md. rewrite Hcreate. reflexivity. }
  rewrite E. unfold bind at 1.
  rewrite (get_staging_location_returns P k created last details metafiles);
    try rewrite Ht0; auto.
  change (cluster_metadata created) with md. fold gcs_path t1 dir.
  unfold bind at 1, modify at 1. unfold bind at 1.
  unfold get_master_url_and_dashboard. unfold bind at 1, get at 1.
  unfold bind at 1, fs__list.
  cbn [set_staging_directory with_trace trace _staging_directory cluster_metadata].
  rewrite Hlist. reflexivity.
Qed.

Lemma create_cluster_endpoint_failure_keeps_staging_directory_witness :
  create_cluster (Sample.platform None None 0 Sample.yarn []) 1 PNone Sample.fresh
  = Raised (ApiError None "no path")
      {| cluster_metadata := Sample.metadata;
         _staging_directory := None;
         trace :=
           [ CreateClusterRpc "test-project" "us-central1" PNone;
             Log INFO "Cluster created successfully: test-cluster";
             GetClusterRpc "test-project" "us-central1" "test-cluster";
             GetClusterRpc "test-project" "us-central1" "test-cluster";
             FsList (Some "gs://bucket/google-cloud-dataproc-metainfo/");
             FsList None ] |}.
Proof.
  apply (create_cluster_endpoint_failure_keeps_staging_directory
           (Sample.platform None None 0 Sample.yarn []) PNone 0 Sample.fresh
           {| status_state_name := "RUNNING"; config_bucket := "bucket";
              http_ports := [("YARN ResourceManager", Sample.yarn)] |}
           {| status_state_name := "RUNNING"; config_bucket := "bucket";
              http_ports := [("YARN ResourceManager", Sample.yarn)] |}
           [] (ApiError None "no path")).
  - reflexivity.
  - reflexivity.
  - intros i Hi. lia.
  - reflexivity.
  - discriminate.
  - reflexivity.
  - reflexivity.
  - discriminate.
  - reflexivity.
  - lia.
Defined.
